(** * cbot.py: the Cohere generation client and the Telegram relay

    A shallow embedding of [src/cbot.py].

    - Python [str] values are lists of Unicode code points ([list N]), so
      that [str.strip] and [len] mean what they mean in Python.
    - The value returned by [response.json()] is a [pyval]; a JSON object is
      a Python [dict], modelled as a [gmap] from [str] keys.
    - Code that may raise returns a [pyresult]; effectful code lives in the
      state-and-exception monad [M].  The state records every call made to
      [requests.post] and to the Telegram bot, and holds the behaviour of the
      two remote services, which is arbitrary.
    - Exceptions are the classes below [Exception].  Asynchronous interrupts
      ([KeyboardInterrupt], [SystemExit] raised from a signal) can arrive at
      any instruction and are not modelled.
    - [print] writes to a UTF-8 console.  At the module top level the lines
      printed are recorded, and the values of the environment are taken to
      be encodable.  Inside the functions what is printed is not recorded,
      but every call is there, because a [print] can fail: it raises
      [UnicodeEncodeError] when its text has a lone surrogate, which a
      string that comes from a remote service can have. *)

From Stdlib Require Import ZArith NArith List String Ascii SpecFloat DecimalString.
From stdpp Require Import base gmap list strings.

Local Open Scope Z_scope.

(** ** Python strings *)

Abbreviation str := (list N).

(** UTF-8 decoding, used only to write the string literals of the source. *)
Fixpoint utf8_decode (bs : list N) : str :=
  match bs with
  | [] => []
  | b0 :: r0 =>
    if (b0 <? 0x80)%N then b0 :: utf8_decode r0
    else match r0 with
    | [] => []
    | b1 :: r1 =>
      if (b0 <? 0xE0)%N then
        ((b0 - 0xC0) * 0x40 + (b1 - 0x80))%N :: utf8_decode r1
      else match r1 with
      | [] => []
      | b2 :: r2 =>
        if (b0 <? 0xF0)%N then
          ((b0 - 0xE0) * 0x1000 + (b1 - 0x80) * 0x40 + (b2 - 0x80))%N
            :: utf8_decode r2
        else match r2 with
        | [] => []
        | b3 :: r3 =>
          ((b0 - 0xF0) * 0x40000 + (b1 - 0x80) * 0x1000
           + (b2 - 0x80) * 0x40 + (b3 - 0x80))%N :: utf8_decode r3
        end
      end
    end
  end.

Definition u (s : string) : str :=
  utf8_decode (map N_of_ascii (list_ascii_of_string s)).
Arguments u : simpl never.

(** [str(n)] for a Python [int]. *)
Definition str_of_int (z : Z) : str :=
  u (NilZero.string_of_int (Z.to_int z)).
Arguments str_of_int : simpl never.

(** [str.isspace] on one code point: the characters [str.strip()] removes. *)
Definition isspace (c : N) : bool :=
  ((0x09 <=? c) && (c <=? 0x0D) || (0x1C <=? c) && (c <=? 0x20)
   || (c =? 0x85) || (c =? 0xA0) || (c =? 0x1680)
   || (0x2000 <=? c) && (c <=? 0x200A)
   || (c =? 0x2028) || (c =? 0x2029) || (c =? 0x202F) || (c =? 0x205F)
   || (c =? 0x3000))%N.

Fixpoint lstrip (s : str) : str :=
  match s with
  | [] => []
  | c :: s' => if isspace c then lstrip s' else s
  end.

Definition rstrip (s : str) : str := reverse (lstrip (reverse s)).

(** [s.strip()] *)
Definition strip (s : str) : str := rstrip (lstrip s).

(** [needle in s] for two strings: [needle] occurs as a substring. *)
Fixpoint is_prefix (p s : str) : bool :=
  match p, s with
  | [], _ => true
  | _ :: _, [] => false
  | a :: p', b :: s' => (a =? b)%N && is_prefix p' s'
  end.

Fixpoint is_substring (needle s : str) : bool :=
  is_prefix needle s ||
  match s with
  | [] => false
  | _ :: s' => is_substring needle s'
  end.

(** A lone surrogate, which UTF-8 cannot encode. *)
Definition is_surrogate (c : N) : bool := ((0xD800 <=? c) && (c <=? 0xDFFF))%N.

Definition has_surrogate (s : str) : bool := existsb is_surrogate s.

(** ** Python values, exceptions, results *)

(** What [json.loads] can produce. *)
#[warnings="-register-all"]
Inductive pyval : Type :=
| PNone
| PBool (b : bool)
| PInt (z : Z)
| PFloat (f : spec_float)
| PStr (s : str)
| PList (l : list pyval)
| PDict (d : gmap str pyval).

(** The exception classes that matter to the [except] clauses of the source.
    [ConnectTimeout] derives from both [ConnectionError] and [Timeout]. *)
Inductive exc_class : Type :=
| Timeout | ReadTimeout | ConnectTimeout
| ConnectionError | SSLError | ProxyError
| HTTPError | JSONDecodeError | TooManyRedirects | InvalidHeader
| ChunkedEncodingError | OtherRequestException
| KeyError | IndexError | TypeError | AttributeError | ValueError
| UnboundLocalError | TelegramError | OtherException
| UnicodeEncodeError.

(** [exc_str] is [str(e)].  [exc_response_text] is [e.response.text] when
    the exception carries a response, as an [HTTPError] does, and [None]
    when [e.response] is [None] or [e] has no such attribute. *)
Record exc : Type := exc_with_response {
  exc_cls : exc_class;
  exc_str : str;
  exc_response_text : option str
}.

(** An exception that carries no response. *)
Definition mk_exc (cls : exc_class) (text : str) : exc :=
  exc_with_response cls text None.

(** [issubclass c requests.exceptions.Timeout] *)
Definition is_Timeout (c : exc_class) : bool :=
  match c with
  | Timeout | ReadTimeout | ConnectTimeout => true
  | _ => false
  end.

(** [issubclass c requests.exceptions.ConnectionError] *)
Definition is_ConnectionError (c : exc_class) : bool :=
  match c with
  | ConnectionError | SSLError | ProxyError | ConnectTimeout => true
  | _ => false
  end.

(** [issubclass c requests.exceptions.RequestException] *)
Definition is_RequestException (c : exc_class) : bool :=
  match c with
  | Timeout | ReadTimeout | ConnectTimeout
  | ConnectionError | SSLError | ProxyError
  | HTTPError | JSONDecodeError | TooManyRedirects | InvalidHeader
  | ChunkedEncodingError | OtherRequestException => true
  | _ => false
  end.

(** [issubclass c Exception] *)
Definition is_Exception (c : exc_class) : bool := true.

Inductive pyresult (A : Type) : Type :=
| Return (a : A)
| Raise (e : exc).
Arguments Return {A} a.
Arguments Raise {A} e.

(** ** State and exceptions *)

Definition M (S A : Type) : Type := S -> pyresult A * S.

Definition ret {S A} (a : A) : M S A := fun s => (Return a, s).

Definition raise {S A} (e : exc) : M S A := fun s => (Raise e, s).

Definition bind {S A B} (m : M S A) (k : A -> M S B) : M S B :=
  fun s =>
    match m s with
    | (Return a, s') => k a s'
    | (Raise e, s') => (Raise e, s')
    end.

Definition lift {S A} (r : pyresult A) : M S A := fun s => (r, s).

Declare Scope py_scope.
Delimit Scope py_scope with py.
Notation "x <- c ;; k" := (bind c (fun x => k))
  (at level 100, c at next level, right associativity) : py_scope.
Notation "c ;;; k" := (bind c (fun _ => k))
  (at level 100, right associativity) : py_scope.
Local Open Scope py_scope.

(** [except cls as e: handler] *)
Definition except_clause (S A : Type) : Type :=
  ((exc_class -> bool) * (exc -> M S A))%type.

(** The clauses are tried in order; an exception no clause matches goes on. *)
Fixpoint dispatch {S A} (clauses : list (except_clause S A)) (e : exc) : M S A :=
  match clauses with
  | [] => raise e
  | (matches, handler) :: rest =>
    if matches (exc_cls e) then handler e else dispatch rest e
  end.

Definition try_except {S A} (body : M S A) (clauses : list (except_clause S A))
  : M S A :=
  fun s =>
    match body s with
    | (Return a, s') => (Return a, s')
    | (Raise e, s') => dispatch clauses e s'
    end.

(** ** Operations on Python values

    The messages of the built-in errors are those of CPython 3.12; the
    source never returns them. *)

Definition type_name (v : pyval) : str :=
  match v with
  | PNone => u "NoneType"
  | PBool _ => u "bool"
  | PInt _ => u "int"
  | PFloat _ => u "float"
  | PStr _ => u "str"
  | PList _ => u "list"
  | PDict _ => u "dict"
  end.

(** [key in container], for a string [key] *)
Definition py_contains (key : str) (container : pyval) : pyresult bool :=
  match container with
  | PDict d => Return (bool_decide (is_Some (d !! key)))
  | PList l =>
    Return (existsb (fun v => match v with
                              | PStr s => bool_decide (s = key)
                              | _ => false
                              end) l)
  | PStr s => Return (is_substring key s)
  | v => Raise (mk_exc TypeError
                  (u "argument of type '" ++ type_name v ++ u "' is not iterable"))
  end.

(** [container[key]], for a string [key] *)
Definition py_getitem_str (container : pyval) (key : str) : pyresult pyval :=
  match container with
  | PDict d =>
    match d !! key with
    | Some v => Return v
    | None => Raise (mk_exc KeyError (u "'" ++ key ++ u "'"))
    end
  | PList _ =>
    Raise (mk_exc TypeError (u "list indices must be integers or slices, not str"))
  | PStr _ =>
    Raise (mk_exc TypeError (u "string indices must be integers, not 'str'"))
  | v => Raise (mk_exc TypeError
                  (u "'" ++ type_name v ++ u "' object is not subscriptable"))
  end.

(** [container[0]] *)
Definition py_getitem_0 (container : pyval) : pyresult pyval :=
  match container with
  | PList l =>
    match l with
    | v :: _ => Return v
    | [] => Raise (mk_exc IndexError (u "list index out of range"))
    end
  | PStr s =>
    match s with
    | c :: _ => Return (PStr [c])
    | [] => Raise (mk_exc IndexError (u "string index out of range"))
    end
  | PDict _ => Raise (mk_exc KeyError (u "0"))
  | v => Raise (mk_exc TypeError
                  (u "'" ++ type_name v ++ u "' object is not subscriptable"))
  end.

(** [len(v)] *)
Definition py_len (v : pyval) : pyresult Z :=
  match v with
  | PList l => Return (Z.of_nat (length l))
  | PStr s => Return (Z.of_nat (length s))
  | PDict d => Return (Z.of_nat (size d))
  | v => Raise (mk_exc TypeError
                  (u "object of type '" ++ type_name v ++ u "' has no len()"))
  end.

(** [v.strip()] *)
Definition py_strip (v : pyval) : pyresult str :=
  match v with
  | PStr s => Return (strip s)
  | v => Raise (mk_exc AttributeError
                  (u "'" ++ type_name v ++ u "' object has no attribute 'strip'"))
  end.

(** ** [print]

    The pieces of the text of one [print]: a string, the text of an [int],
    or [str(v)] for a decoded value [v]. *)
Inductive fragment : Type :=
| Text (s : str)
| Int (z : Z)
| Value (v : pyval).

(** Whether a piece has a lone surrogate.  The text of an [int] is a sign
    and digits.  [str(v)] is [v] itself for a string; for a dict or a list it
    is the [repr], which writes the surrogates of the strings inside as
    escapes, and for a number, a boolean or [None] it is ASCII. *)
Definition unencodable (f : fragment) : bool :=
  match f with
  | Text s => has_surrogate s
  | Int _ => false
  | Value (PStr s) => has_surrogate s
  | Value _ => false
  end.

(** The text of the error names the character and its position; it is
    ASCII. *)
Definition unicode_encode_error : exc :=
  mk_exc UnicodeEncodeError
    (u "'utf-8' codec can't encode character: surrogates not allowed").

(** [print(f"...")] on a UTF-8 console. *)
Fixpoint print (text : list fragment) : pyresult unit :=
  match text with
  | [] => Return tt
  | f :: rest => if unencodable f then Raise unicode_encode_error else print rest
  end.

(** ** The [requests] library *)

(** The arguments of one [requests.post(url, headers=, json=, timeout=)]. *)
Record Request : Type := mk_Request {
  req_url : str;
  req_headers : gmap str str;
  req_json : gmap str pyval;
  req_timeout : Z
}.

(** A [requests.Response]: [resp_text] is [response.text], the body as a
    string, and [resp_json] is what [response.json()] gives, the decoded
    body or the exception the decoder raises.  The decoder is not modelled:
    the two fields are given side by side. *)
Record Response : Type := response_with_text {
  status_code : Z;
  reason : str;
  resp_url : str;
  resp_text : str;
  resp_json : pyresult pyval
}.

(** A response with an empty [text]. *)
Definition mk_Response (status_code : Z) (reason resp_url : str)
    (resp_json : pyresult pyval) : Response :=
  response_with_text status_code reason resp_url [] resp_json.

(** [response.raise_for_status()], as the library defines it: an [HTTPError]
    that carries the response for the statuses 400 to 599, and nothing
    otherwise. *)
Definition raise_for_status (response : Response) : pyresult unit :=
  let http_error_msg :=
    if (400 <=? status_code response) && (status_code response <? 500) then
      str_of_int (status_code response) ++ u " Client Error: "
        ++ reason response ++ u " for url: " ++ resp_url response
    else if (500 <=? status_code response) && (status_code response <? 600) then
      str_of_int (status_code response) ++ u " Server Error: "
        ++ reason response ++ u " for url: " ++ resp_url response
    else [] in
  match http_error_msg with
  | [] => Return tt
  | _ :: _ =>
    Raise (exc_with_response HTTPError http_error_msg (Some (resp_text response)))
  end.

(** ** The Telegram bot API *)

Inductive BotCall : Type :=
| send_chat_action (chat_id : Z) (action : str)
| send_message (chat_id : Z) (text : str).

(** ** The world outside the process

    [network] and [telegram] say how the two services answer a call, given
    the calls made before it: [telegram] gives [None] when the call returns
    and the exception when it raises.  A call that raises may have reached
    Telegram all the same (a time-out on the way back), which the process
    cannot see: [telegram_took] says so.  [posted] and [bot_calls] log the
    calls made, oldest first, and [delivered] the bot calls that Telegram
    took. *)
Record World : Type := world_with_losses {
  network : list Request -> Request -> pyresult Response;
  posted : list Request;
  telegram : list BotCall -> BotCall -> option exc;
  telegram_took : list BotCall -> BotCall -> bool;
  bot_calls : list BotCall;
  delivered : list BotCall
}.

(** A world where a bot call that raises has not reached Telegram. *)
Definition mk_World (network : list Request -> Request -> pyresult Response)
    (posted : list Request) (telegram : list BotCall -> BotCall -> option exc)
    (bot_calls delivered : list BotCall) : World :=
  world_with_losses network posted telegram (fun _ _ => false) bot_calls delivered.

(** [requests.post(url, headers=headers, json=data, timeout=timeout)] *)
Definition requests_post (url : str) (headers : gmap str str)
    (data : gmap str pyval) (timeout : Z) : M World Response :=
  fun w =>
    let rq := mk_Request url headers data timeout in
    (network w (posted w) rq,
     world_with_losses (network w) (posted w ++ [rq])
       (telegram w) (telegram_took w) (bot_calls w) (delivered w)).

(** [await context.bot.<call>] *)
Definition bot_do (c : BotCall) : M World unit :=
  fun w =>
    match telegram w (bot_calls w) c with
    | None =>
      (Return tt,
       world_with_losses (network w) (posted w) (telegram w) (telegram_took w)
         (bot_calls w ++ [c]) (delivered w ++ [c]))
    | Some e =>
      (Raise e,
       world_with_losses (network w) (posted w) (telegram w) (telegram_took w)
         (bot_calls w ++ [c])
         (if telegram_took w (bot_calls w) c then delivered w ++ [c]
          else delivered w))
    end.

(** ** [get_cohere_response] *)

Definition MSG_API_KEY_ERROR : str :=
  Eval vm_compute in
  u "❌ **API Key Error**: Your Cohere API key appears to be invalid or expired. Please check your API key in the .env file.".

Definition MSG_RATE_LIMITED : str :=
  Eval vm_compute in
  u "⏳ **Rate Limited**: Too many requests. Please wait a moment and try again.".

Definition MSG_MISSING_DATA : str :=
  Eval vm_compute in
  u "⚠️ Error: Cohere response is missing expected data.".

Definition MSG_TIMEOUT : str :=
  Eval vm_compute in
  u "⏳ **Timeout Error**: Request took too long. Please try again.".

Definition MSG_CONNECTION_ERROR : str :=
  Eval vm_compute in
  u "🌐 **Connection Error**: Could not connect to Cohere API. Check your internet connection.".

Definition MSG_API_ERROR_PREFIX : str :=
  Eval vm_compute in u "⚠️ **API Error**: ".

Definition MSG_UNEXPECTED : str :=
  Eval vm_compute in
  u "⚠️ An unexpected error occurred while generating a response.".

Definition URL : str := Eval vm_compute in u "https://api.cohere.ai/v1/generate".

Definition K_generations : str := Eval vm_compute in u "generations".
Definition K_text : str := Eval vm_compute in u "text".
Definition K_prompt : str := Eval vm_compute in u "prompt".

Section Client.

(** The module global read by the client; start-up leaves it a non-empty
    string or exits. *)
Variable COHERE_API_KEY : str.

Definition headers : gmap str str :=
  <[u "Authorization" := u "Bearer " ++ COHERE_API_KEY]>
    (<[u "Content-Type" := u "application/json"]> ∅).

(** [0.7]: the double nearest to it, [0x1.6666666666666p-1]. *)
Definition temperature : spec_float :=
  S754_finite false 0x16666666666666 (-53).

Definition data (user_input : str) : gmap str pyval :=
  <[u "model" := PStr (u "command")]>
    (<[K_prompt := PStr user_input]>
       (<[u "max_tokens" := PInt 150]>
          (<[u "temperature" := PFloat temperature]> ∅))).

Definition get_cohere_response (user_input : str) : M World str :=
  try_except
    (lift (print [Text (u "Making request to Cohere API...")]) ;;;
     response <- requests_post URL headers (data user_input) 15 ;;
     lift (print [Text (u "Response status code: ");
                  Int (status_code response)]) ;;;
     if status_code response =? 401 then
       lift (print [Text (u "ERROR: 401 Unauthorized - Check your Cohere API key!")]) ;;;
       lift (print [Text (u "Make sure your API key is valid and has the correct permissions.")]) ;;;
       ret MSG_API_KEY_ERROR
     else if status_code response =? 429 then
       lift (print [Text (u "ERROR: 429 Rate Limited")]) ;;;
       ret MSG_RATE_LIMITED
     else
       lift (raise_for_status response) ;;;
       result <- lift (resp_json response) ;;
       has_generations <- lift (py_contains K_generations result) ;;
       nonempty <-
         (if has_generations : bool then
            generations <- lift (py_getitem_str result K_generations) ;;
            n <- lift (py_len generations) ;;
            ret (0 <? n)
          else ret false) ;;
       if nonempty : bool then
         generations <- lift (py_getitem_str result K_generations) ;;
         first <- lift (py_getitem_0 generations) ;;
         text <- lift (py_getitem_str first K_text) ;;
         generated_text <- lift (py_strip text) ;;
         lift (print [Text (u "Successfully received response from Cohere (length: ");
                      Int (Z.of_nat (length generated_text)); Text (u ")")]) ;;;
         ret generated_text
       else
         lift (print [Text (u "ERROR: Unexpected response structure from Cohere")]) ;;;
         lift (print [Text (u "Response: "); Value result]) ;;;
         ret MSG_MISSING_DATA)
    [ (is_Timeout,
       fun _ =>
         lift (print [Text (u "ERROR: Request timed out")]) ;;;
         ret MSG_TIMEOUT);
      (is_ConnectionError,
       fun _ =>
         lift (print [Text (u "ERROR: Connection failed")]) ;;;
         ret MSG_CONNECTION_ERROR);
      (is_RequestException,
       fun req_err =>
         lift (print [Text (u "ERROR: Request failed: ");
                      Text (exc_str req_err)]) ;;;
         match exc_response_text req_err with
         | Some response_text =>
           lift (print [Text (u "Error response: "); Text response_text])
         | None => ret tt
         end ;;;
         ret (MSG_API_ERROR_PREFIX ++ exc_str req_err));
      (is_Exception,
       fun e =>
         lift (print [Text (u "ERROR: Unexpected error: "); Text (exc_str e)]) ;;;
         ret MSG_UNEXPECTED) ].

End Client.

(** ** [handle_message] *)

Record User : Type := mk_User { user_id : Z; username : option str }.

Record Chat : Type := mk_Chat { chat_id : Z }.

(** The handler is registered under [filters.TEXT], so a message that
    reaches it has a text. *)
Record Message : Type := mk_Message { text : str; chat : Chat }.

(** [update.message] is [None] for the updates that carry their message
    elsewhere (an edited message, a channel post); [effective_user] is
    [None] when the update has no sender. *)
Record Update : Type := mk_Update {
  message : option Message;
  effective_user : option User
}.

Definition NoneType_has_no (attr : string) : exc :=
  mk_exc AttributeError (u "'NoneType' object has no attribute '" ++ u attr ++ u "'").

(** [update.message.text] *)
Definition message_text (m : option Message) : pyresult str :=
  match m with
  | Some m => Return (text m)
  | None => Raise (NoneType_has_no "text")
  end.

(** [update.message.chat.id] *)
Definition message_chat_id (m : option Message) : pyresult Z :=
  match m with
  | Some m => Return (chat_id (chat m))
  | None => Raise (NoneType_has_no "chat")
  end.

(** [update.effective_user.id] *)
Definition effective_user_id (usr : option User) : pyresult Z :=
  match usr with
  | Some usr => Return (user_id usr)
  | None => Raise (NoneType_has_no "id")
  end.

(** [update.effective_user.username or "Unknown"] *)
Definition effective_user_username (usr : option User) : pyresult str :=
  match usr with
  | Some usr =>
    match username usr with
    | Some (c :: s) => Return (c :: s)
    | _ => Return (u "Unknown")
    end
  | None => Raise (NoneType_has_no "username")
  end.

(** The local variable of [handle_message] that its [except] clause reads;
    [None] while no assignment has bound it. *)
Record Frame : Type := mk_Frame { local_chat_id : option Z }.

Definition store_chat_id (v : Z) : M (Frame * World) unit :=
  fun s => (Return tt, (mk_Frame (Some v), snd s)).

Definition load_chat_id : M (Frame * World) Z :=
  fun s =>
    match local_chat_id (fst s) with
    | Some v => (Return v, s)
    | None =>
      (Raise (mk_exc UnboundLocalError
                (u "cannot access local variable 'chat_id' where it is not associated with a value")),
       s)
    end.

Definition in_world {A} (m : M World A) : M (Frame * World) A :=
  fun s => let r := m (snd s) in (fst r, (fst s, snd r)).

Definition MSG_RELAY_ERROR : str :=
  Eval vm_compute in
  u "⚠️ An error occurred while processing your message. Please try again.".

Definition ACTION_TYPING : str := Eval vm_compute in u "typing".

Section Relay.

Variable COHERE_API_KEY : str.

Definition handle_message_body (update : Update) : M (Frame * World) unit :=
  try_except
    (user_message <- lift (message_text (message update)) ;;
     v <- lift (message_chat_id (message update)) ;;
     store_chat_id v ;;;
     user_id <- lift (effective_user_id (effective_user update)) ;;
     username <- lift (effective_user_username (effective_user update)) ;;
     lift (print [Text (u "Received message from "); Text username;
                  Text (u " ("); Int user_id; Text (u "): ");
                  Text user_message]) ;;;
     chat_id <- load_chat_id ;;
     in_world (bot_do (send_chat_action chat_id ACTION_TYPING)) ;;;
     response <- in_world (get_cohere_response COHERE_API_KEY user_message) ;;
     lift (print [Text (u "Cohere response: "); Text (take 100 response);
                  Text (u "...")]) ;;;
     chat_id <- load_chat_id ;;
     in_world (bot_do (send_message chat_id response)))
    [ (is_Exception,
       fun e =>
         lift (print [Text (u "Error handling message: ");
                      Text (exc_str e)]) ;;;
         let error_message := MSG_RELAY_ERROR in
         chat_id <- load_chat_id ;;
         in_world (bot_do (send_message chat_id error_message))) ].

(** A call of [handle_message]: the body runs in a fresh frame. *)
Definition handle_message (update : Update) : M World unit :=
  fun w =>
    let r := handle_message_body update (mk_Frame None, w) in
    (fst r, snd (snd r)).

End Relay.

(** ** [start_command] and [help_command] *)

(** The line feed of the literals. *)
Definition LF : str := [10%N].

Definition welcome_message : str :=
  Eval vm_compute in
  u "🤖 Hello! I'm your Cohere AI bot." ++ LF ++ LF
  ++ u "Send me any message and I'll respond using AI!" ++ LF
  ++ u "Just type your question or message below.".

Definition help_message : str :=
  Eval vm_compute in
  u "ℹ️ How to use this bot:" ++ LF ++ LF
  ++ u "• Just send me any text message" ++ LF
  ++ u "• I'll use Cohere AI to generate a response" ++ LF
  ++ u "• Use /start to see the welcome message" ++ LF
  ++ u "• Use /help to see this help message".

(** [await update.message.reply_text(text)]: the bot sends [text] to the
    chat of the message. *)
Definition reply_text (m : option Message) (text : str) : M World unit :=
  match m with
  | Some m => bot_do (send_message (chat_id (chat m)) text)
  | None => raise (NoneType_has_no "reply_text")
  end.

Definition start_command (update : Update) : M World unit :=
  reply_text (message update) welcome_message ;;;
  user_id <- lift (effective_user_id (effective_user update)) ;;
  lift (print [Text (u "Start command sent to user "); Int user_id]).

Definition help_command (update : Update) : M World unit :=
  reply_text (message update) help_message.

(** ** Module top level: start-up *)

Inductive Startup : Type :=
| SystemExit (status : Z)
| Loaded (COHERE_API_KEY TELEGRAM_BOT_TOKEN : str).

(** [load_dotenv()]: the variables of the [.env] file are added to the
    environment; a variable already set keeps its value. *)
Definition load_dotenv (dotenv environ : gmap str str) : gmap str str :=
  environ ∪ dotenv.

(** [bool(v)] for the result of [os.getenv] *)
Definition truthy (v : option str) : bool :=
  match v with
  | Some (_ :: _) => true
  | _ => false
  end.

(** [str(b)] *)
Definition str_of_bool (b : bool) : str :=
  if b then u "True" else u "False".

Definition MSG_MISSING_KEYS : str :=
  Eval vm_compute in u "ERROR: Missing API keys! Please check your .env file.".

(** [COHERE_API_KEY[:8] + "..." + COHERE_API_KEY[-8:] if len(COHERE_API_KEY) > 16 else "***"] *)
Definition masked_key (key : str) : str :=
  if (16 <? length key)%nat then
    take 8 key ++ u "..." ++ drop (length key - 8) key
  else u "***".

(** Lines 13 to 35: the lines printed, oldest first, and how it ends. *)
Definition startup (dotenv environ : gmap str str) : list str * Startup :=
  let out := [u "Bot starting up..."] in
  let environ := load_dotenv dotenv environ in
  let COHERE_API_KEY := environ !! u "COHERE_API_KEY" in
  let TELEGRAM_BOT_TOKEN := environ !! u "TELEGRAM_BOT_TOKEN" in
  let out := out ++ [u "Cohere API Key loaded: " ++ str_of_bool (truthy COHERE_API_KEY)] in
  let out := out ++ [u "Telegram Bot Token loaded: " ++ str_of_bool (truthy TELEGRAM_BOT_TOKEN)] in
  if negb (truthy COHERE_API_KEY) || negb (truthy TELEGRAM_BOT_TOKEN) then
    (out ++ [MSG_MISSING_KEYS], SystemExit 1)
  else
    let out :=
      if truthy COHERE_API_KEY then
        out ++ [u "Cohere API Key preview: " ++ masked_key (default [] COHERE_API_KEY)]
      else out ++ [u "WARNING: Cohere API Key is empty!"] in
    (out, Loaded (default [] COHERE_API_KEY) (default [] TELEGRAM_BOT_TOKEN)).

(** * Properties *)

(** ** Vocabulary of the statements *)

(** The request one call of [get_cohere_response] makes. *)
Definition the_request (key user_input : str) : Request :=
  mk_Request URL (headers key) (data user_input) 15.

(** What the network answers to that request in world [w]. *)
Definition answer (key user_input : str) (w : World) : pyresult Response :=
  network w (posted w) (the_request key user_input).

(** The world once one more request has been posted. *)
Definition after_post (rq : Request) (w : World) : World :=
  world_with_losses (network w) (posted w ++ [rq]) (telegram w) (telegram_took w)
    (bot_calls w) (delivered w).

(** The expected shape of a body, in the words of the specification: an
    array field [generations] with at least one object that has a [text]
    field.  [first_text] is the value of that field. *)
Definition first_text (body : pyval) : option pyval :=
  match body with
  | PDict d =>
    match d !! K_generations with
    | Some (PList (PDict g :: _)) => g !! K_text
    | _ => None
    end
  | _ => None
  end.

Definition blank (s : str) : Prop := forallb isspace s = true.

(** ** Sample inputs *)

(** A deterministic mock: every request gets the answer [o], every bot call
    goes through, nothing has been sent yet. *)
Definition mock (o : pyresult Response) : World :=
  mk_World (fun _ _ => o) [] (fun _ _ => None) [] [].

Definition ok_response (body : pyval) : Response :=
  mk_Response 200 (u "OK") URL (Return body).

(** [{"generations":[{"text":" Hello there "}]}] *)
Definition body_hello : pyval :=
  PDict {[ K_generations := PList [PDict {[ K_text := PStr (u " Hello there ") ]}] ]}.

(** [{"generations":[{"text":"   "}]}] *)
Definition body_blank : pyval :=
  PDict {[ K_generations := PList [PDict {[ K_text := PStr (u "   ") ]}] ]}.

(** [{"generations":[{}]}] *)
Definition body_no_text : pyval :=
  PDict {[ K_generations := PList [PDict ∅] ]}.

(** [{"generations":[]}] *)
Definition body_empty_generations : pyval :=
  PDict {[ K_generations := PList [] ]}.

(** [{}] *)
Definition body_no_generations : pyval := PDict ∅.

Definition response_300 : Response :=
  mk_Response 300 (u "Multiple Choices") URL (Return body_hello).

Definition response_404 : Response :=
  mk_Response 404 (u "Not Found") URL (Raise (mk_exc JSONDecodeError [])).

(** It carries the last response, a redirect with an empty body. *)
Definition too_many_redirects : exc :=
  exc_with_response TooManyRedirects (u "Exceeded 30 redirects.") (Some []).

(** An edited text message: [update.message] is [None]. *)
Definition update_edited : Update :=
  mk_Update None (Some (mk_User 7 (Some (u "ann")))).

Definition sample_key : str := Eval vm_compute in u "k3y".
Definition sample_prompt : str := Eval vm_compute in u "Hi".

Definition environ_full : gmap str str :=
  {[ u "COHERE_API_KEY" := sample_key; u "TELEGRAM_BOT_TOKEN" := u "12345:token" ]}.


(** ** Vocabulary of the statements about the relay *)

(** The chat a bot call is addressed to. *)
Definition call_chat (c : BotCall) : Z :=
  match c with
  | send_chat_action chat_id _ => chat_id
  | send_message chat_id _ => chat_id
  end.

Definition is_send_message (c : BotCall) : bool :=
  match c with
  | send_message _ _ => true
  | send_chat_action _ _ => false
  end.

(** The world once the bot has been asked to make the call [c], which
    Telegram took or not. *)
Definition after_call (c : BotCall) (taken : bool) (w : World) : World :=
  world_with_losses (network w) (posted w) (telegram w) (telegram_took w)
    (bot_calls w ++ [c]) (if taken then delivered w ++ [c] else delivered w).

(** The built-in errors the operations on Python values raise. *)
Definition is_builtin_error (c : exc_class) : bool :=
  match c with
  | KeyError | IndexError | TypeError | AttributeError => true
  | _ => false
  end.

(** A built-in error whose text has no lone surrogate: the last [except]
    clause catches it and its [print] goes through. *)
Definition quiet (e : exc) : Prop :=
  is_builtin_error (exc_cls e) = true /\ has_surrogate (exc_str e) = false.

(** Whether a [print] of the [except] clause that catches [e] raises: the
    clauses of the timeouts and of the connection errors print fixed lines,
    the clause of the other exceptions of [requests] prints the text of the
    exception and the text of the response it carries, and the last clause
    prints the text of the exception. *)
Definition unprintable (e : exc) : bool :=
  if is_Timeout (exc_cls e) || is_ConnectionError (exc_cls e) then false
  else if is_RequestException (exc_cls e) then
    has_surrogate (exc_str e)
    || match exc_response_text e with
       | Some response_text => has_surrogate response_text
       | None => false
       end
  else has_surrogate (exc_str e).

(** An answer of the network none of whose texts has a lone surrogate. *)
Definition printable_answer (o : pyresult Response) : bool :=
  match o with
  | Raise e => negb (unprintable e)
  | Return response =>
    negb (has_surrogate (reason response))
    && negb (has_surrogate (resp_url response))
    && negb (has_surrogate (resp_text response))
    && match resp_json response with
       | Raise e => negb (unprintable e)
       | Return _ => true
       end
  end.

(** The [except] clause of [handle_message] once [chat_id] is bound to
    [chat_id]: the caught exception is printed, then the apology is sent. *)
Definition apologise (chat_id : Z) (e : exc) : M World unit :=
  fun w =>
    match print [Text (u "Error handling message: "); Text (exc_str e)] with
    | Raise e' => (Raise e', w)
    | Return _ => bot_do (send_message chat_id MSG_RELAY_ERROR) w
    end.

(** The line [handle_message] prints on receiving a message. *)
Definition received_line (m : Message) (usr : User) : list fragment :=
  [Text (u "Received message from ");
   Text (match username usr with
         | Some (c :: s) => c :: s
         | _ => u "Unknown"
         end);
   Text (u " ("); Int (user_id usr); Text (u "): "); Text (text m)].

(** The line [handle_message] prints on the result of the client. *)
Definition response_line (response : str) : list fragment :=
  [Text (u "Cohere response: "); Text (take 100 response); Text (u "...")].

(** The message an exception that leaves the [try] block is turned into. *)
Definition message_of_exception (e : exc) : str :=
  if is_Timeout (exc_cls e) then MSG_TIMEOUT
  else if is_ConnectionError (exc_cls e) then MSG_CONNECTION_ERROR
  else if is_RequestException (exc_cls e) then MSG_API_ERROR_PREFIX ++ exc_str e
  else MSG_UNEXPECTED.

(** What the [except] clauses make of an exception that leaves the [try]
    block: the message of its clause, unless a [print] of the clause raises. *)
Definition caught (e : exc) : pyresult str :=
  if unprintable e then Raise unicode_encode_error
  else Return (message_of_exception e).

(** The [HTTPError] of a response whose status is from 400 to 599. *)
Definition http_error (response : Response) : exc :=
  exc_with_response HTTPError
    (str_of_int (status_code response)
     ++ (if status_code response <? 500 then u " Client Error: "
         else u " Server Error: ")
     ++ reason response ++ u " for url: " ++ resp_url response)
    (Some (resp_text response)).

(** ** More sample inputs *)

(** [{"generations":[{"text": s}]}] *)
Definition body_with_text (s : str) : pyval :=
  PDict {[ K_generations := PList [PDict {[ K_text := PStr s ]}] ]}.

(** A text message [text] in chat 42 from user 7. *)
Definition update_text (text : str) : Update :=
  mk_Update (Some (mk_Message text (mk_Chat 42)))
            (Some (mk_User 7 (Some (u "ann")))).

(** A bot that refuses to send an empty text and sends everything else. *)
Definition telegram_rejects_empty (_ : list BotCall) (c : BotCall) : option exc :=
  match c with
  | send_message _ [] => Some (mk_exc TelegramError (u "Message text is empty"))
  | _ => None
  end.

(** A bot whose typing indicator is down and that sends every message. *)
Definition telegram_no_typing (_ : list BotCall) (c : BotCall) : option exc :=
  match c with
  | send_chat_action _ _ => Some (mk_exc TelegramError (u "Timed out"))
  | send_message _ _ => None
  end.

(** A bot that is down. *)
Definition telegram_down (_ : list BotCall) (_ : BotCall) : option exc :=
  Some (mk_exc TelegramError (u "Timed out")).

Definition world_with (o : pyresult Response)
    (tg : list BotCall -> BotCall -> option exc) : World :=
  mk_World (fun _ _ => o) [] tg [] [].

(** A string with a lone surrogate, as [json.loads] gives for the escape
    [\udc80]. *)
Definition lone_surrogate : str := [0xDC80%N].

(** A 404 whose body text has a lone surrogate. *)
Definition response_404_surrogate : Response :=
  response_with_text 404 (u "Not Found") URL lone_surrogate
    (Raise (mk_exc JSONDecodeError [])).

(** The messages other than the apology. *)
Definition is_answer (c : BotCall) : bool :=
  match c with
  | send_message _ text => negb (bool_decide (text = MSG_RELAY_ERROR))
  | send_chat_action _ _ => false
  end.

(** A bot whose answer to the sending of [lost] is lost on the way back:
    the call raises although Telegram took the message; every other call
    returns. *)
Definition world_losing (o : pyresult Response) (lost : BotCall -> bool) : World :=
  world_with_losses (fun _ _ => o) []
    (fun _ c => if lost c then Some (mk_exc TelegramError (u "Timed out")) else None)
    (fun _ c => lost c) [] [].

Definition long_key : str := Eval vm_compute in u "abcdefgh-SECRET-stuvwxyz".

(** ** [str.strip] *)

Lemma lstrip_split (s : str) :
  exists l, s = l ++ lstrip s /\ blank l.
Proof.
  induction s as [|c s [l [Hs Hl]]]; [by exists [] |].
  cbn [lstrip]. destruct (isspace c) eqn:Hc.
  - exists (c :: l). split; [cbn; congruence |]. unfold blank. cbn. by rewrite Hc.
  - by exists [].
Qed.

Lemma lstrip_head (s : str) (c : N) :
  head (lstrip s) = Some c -> isspace c = false.
Proof.
  induction s as [|d s IH]; [done |].
  cbn [lstrip]. destruct (isspace d) eqn:Hd; [done |].
  cbn. intros [= <-]. done.
Qed.

Lemma lstrip_nil (s : str) : lstrip s = [] <-> blank s.
Proof.
  unfold blank. induction s as [|c s IH]; [done |].
  cbn. destruct (isspace c); cbn; [done |]. split; discriminate.
Qed.

Lemma blank_reverse (s : str) : blank (reverse s) <-> blank s.
Proof.
  unfold blank. rewrite !forallb_forall. unfold reverse. rewrite <- rev_alt.
  split; intros H c Hc; apply H; [by apply in_rev in Hc | by apply in_rev].
Qed.

Lemma blank_app (s t : str) : blank (s ++ t) <-> blank s /\ blank t.
Proof. unfold blank. rewrite forallb_app. apply andb_true_iff. Qed.

Lemma strip_split (t : str) :
  exists l r, t = l ++ strip t ++ r /\ blank l /\ blank r.
Proof.
  destruct (lstrip_split t) as [l [Ht Hl]].
  destruct (lstrip_split (reverse (lstrip t))) as [r [Hr Hb]].
  exists l, (reverse r). split; [| split; [done | by apply blank_reverse]].
  unfold strip, rstrip. rewrite <- reverse_app, <- Hr, reverse_involutive. done.
Qed.

Lemma strip_head (t : str) (c : N) :
  head (strip t) = Some c -> isspace c = false.
Proof.
  unfold strip, rstrip. intros H.
  destruct (lstrip_split (reverse (lstrip t))) as [r [Hr Hb]].
  apply (f_equal reverse) in Hr. rewrite reverse_involutive, reverse_app in Hr.
  destruct (reverse (lstrip (reverse (lstrip t)))) as [|d s] eqn:E; [done |].
  cbn in H. injection H as ->.
  apply (lstrip_head t). by rewrite Hr.
Qed.

Lemma strip_last (t : str) (c : N) :
  last (strip t) = Some c -> isspace c = false.
Proof.
  unfold strip, rstrip. rewrite last_reverse. apply lstrip_head.
Qed.

Lemma strip_nil (t : str) : strip t = [] <-> blank t.
Proof.
  split.
  - intros H. destruct (strip_split t) as [l [r [Ht [Hl Hr]]]].
    rewrite H in Ht. rewrite Ht. apply blank_app. by split.
  - intros H. apply lstrip_nil in H. unfold strip, rstrip. by rewrite H.
Qed.

(** ** Inversion of the operations on Python values *)

Lemma py_getitem_str_Return (v : pyval) (k : str) (x : pyval) :
  py_getitem_str v k = Return x -> exists d, v = PDict d /\ d !! k = Some x.
Proof.
  destruct v as [| | | | |l|d]; cbn; try discriminate.
  destruct (d !! k) as [y|] eqn:E; [| discriminate].
  intros [= ->]. by exists d.
Qed.

Lemma py_getitem_0_dict (g : pyval) (f : gmap str pyval) :
  py_getitem_0 g = Return (PDict f) -> exists rest, g = PList (PDict f :: rest).
Proof.
  destruct g as [| | | |s|l|d]; cbn; try discriminate.
  - destruct s; discriminate.
  - destruct l as [|v rest]; [discriminate |]. intros [= ->]. by exists rest.
Qed.

Lemma py_strip_Return (v : pyval) (s : str) :
  py_strip v = Return s -> exists t, v = PStr t /\ s = strip t.
Proof.
  destruct v; cbn; try discriminate. intros [= <-]. eauto.
Qed.

Lemma first_text_shape (body v : pyval) :
  first_text body = Some v ->
  exists d g rest,
    body = PDict d /\ d !! K_generations = Some (PList (PDict g :: rest))
    /\ g !! K_text = Some v.
Proof.
  destruct body as [| | | | | |d]; cbn; try discriminate.
  destruct (d !! K_generations) as [[| | | | |[|[| | | | | |g] rest]|]|] eqn:E;
    try discriminate.
  intros H. by exists d, g, rest.
Qed.

(** What the success branch needs of the body. *)
Lemma success_shape (result generations first text : pyval) (s : str) :
  py_getitem_str result K_generations = Return generations ->
  py_getitem_0 generations = Return first ->
  py_getitem_str first K_text = Return text ->
  py_strip text = Return s ->
  exists t, first_text result = Some (PStr t) /\ s = strip t.
Proof.
  intros Hg H0 Ht Hs.
  apply py_getitem_str_Return in Hg as [d [-> Hd]].
  apply py_getitem_str_Return in Ht as [f [-> Hf]].
  apply py_getitem_0_dict in H0 as [rest ->].
  apply py_strip_Return in Hs as [t [-> ->]].
  exists t. split; [| done]. cbn. by rewrite Hd.
Qed.

(** ** [raise_for_status] *)

Lemma raise_for_status_ok (r : Response) :
  ~ (400 <= status_code r < 600) -> raise_for_status r = Return tt.
Proof.
  intros H. unfold raise_for_status.
  destruct (400 <=? status_code r) eqn:E1, (status_code r <? 500) eqn:E2,
    (500 <=? status_code r) eqn:E3, (status_code r <? 600) eqn:E4;
    cbn; try reflexivity; lia.
Qed.

Lemma raise_for_status_error (r : Response) :
  400 <= status_code r < 600 ->
  raise_for_status r =
  Raise (exc_with_response HTTPError
           (str_of_int (status_code r)
            ++ (if status_code r <? 500 then u " Client Error: "
                else u " Server Error: ")
            ++ reason r ++ u " for url: " ++ resp_url r)
           (Some (resp_text r))).
Proof.
  intros H. unfold raise_for_status.
  destruct (400 <=? status_code r) eqn:E1; [| lia].
  destruct (status_code r <? 500) eqn:E2; cbn [andb].
  - destruct (str_of_int (status_code r)); reflexivity.
  - destruct (500 <=? status_code r) eqn:E3; [| lia].
    destruct (status_code r <? 600) eqn:E4; [| lia]. cbn [andb].
    destruct (str_of_int (status_code r)); reflexivity.
Qed.

(** ** Texts without a lone surrogate *)

Lemma has_surrogate_app (s t : str) :
  has_surrogate (s ++ t) = has_surrogate s || has_surrogate t.
Proof. apply existsb_app. Qed.

Lemma utf8_decode_ascii (l : list N) :
  Forall (fun b => (b < 0x80)%N) l -> utf8_decode l = l.
Proof.
  induction 1 as [|b l Hb _ IH]; [reflexivity |].
  cbn [utf8_decode]. apply N.ltb_lt in Hb. rewrite Hb. by rewrite IH.
Qed.

Lemma ascii_no_surrogate (l : list N) :
  Forall (fun b => (b < 0x80)%N) l -> has_surrogate l = false.
Proof.
  induction 1 as [|b l Hb _ IH]; [reflexivity |].
  cbn [has_surrogate existsb]. fold (has_surrogate l). rewrite IH.
  unfold is_surrogate. destruct (N.leb_spec 0xD800 b); [lia | reflexivity].
Qed.

Ltac ascii_forall :=
  repeat match goal with
         | |- Forall _ (_ :: _) => apply List.Forall_cons
         | |- Forall _ [] => apply List.Forall_nil
         end;
  try assumption; try exact eq_refl.

Lemma digits_ascii (d : Decimal.uint) :
  Forall (fun b => (b < 0x80)%N)
         (map N_of_ascii (list_ascii_of_string (NilEmpty.string_of_uint d))).
Proof.
  induction d; cbn [NilEmpty.string_of_uint list_ascii_of_string map];
    ascii_forall.
Qed.

Lemma string_of_uint_ascii (d : Decimal.uint) :
  Forall (fun b => (b < 0x80)%N)
         (map N_of_ascii (list_ascii_of_string (NilZero.string_of_uint d))).
Proof.
  destruct d; try apply digits_ascii.
  cbn [NilZero.string_of_uint list_ascii_of_string map]. ascii_forall.
Qed.

Lemma str_of_int_printable (z : Z) : has_surrogate (str_of_int z) = false.
Proof.
  unfold str_of_int, u.
  assert (H : Forall (fun b => (b < 0x80)%N)
                (map N_of_ascii
                   (list_ascii_of_string (NilZero.string_of_int (Z.to_int z))))).
  { destruct (Z.to_int z) as [d|d];
      cbn [NilZero.string_of_int list_ascii_of_string map];
      [| apply List.Forall_cons; [exact eq_refl |]]; apply string_of_uint_ascii. }
  rewrite (utf8_decode_ascii _ H). by apply ascii_no_surrogate.
Qed.

(** ** The client: one request, and a result that depends on its answer *)

(** The fixed lines have no lone surrogate. *)
Ltac literals :=
  repeat match goal with
  | |- context [has_surrogate (u ?s)] => change (has_surrogate (u s)) with false
  end.

Ltac simp_client :=
  cbn [fst snd dispatch exc_cls exc_str exc_response_text is_Exception
       print unencodable];
  literals;
  cbn [fst snd dispatch exc_cls exc_str exc_response_text is_Exception
       print unencodable].

Ltac run_client :=
  unfold get_cohere_response, try_except, bind, requests_post, lift, ret, raise;
  simp_client;
  repeat match goal with
  | |- context [mk_Request URL (headers ?k) (data ?p) 15] =>
    fold (the_request k p)
  end;
  repeat match goal with
  | |- context [network ?w (posted ?w) (the_request ?k ?p)] =>
    fold (answer k p w)
  end.

Ltac split_cases :=
  repeat match goal with
  | |- context [match ?x with _ => _ end] =>
    lazymatch x with
    | context [match _ with _ => _ end] => fail
    | _ => destruct x eqn:?; simp_client
    end
  end.

Lemma get_cohere_response_world (key user_input : str) (w : World) :
  snd (get_cohere_response key user_input w)
  = after_post (the_request key user_input) w.
Proof. run_client. unfold after_post. split_cases; reflexivity. Qed.

(** The result is a function of the answer alone. *)
Lemma get_cohere_response_result (key user_input : str) (w : World) :
  fst (get_cohere_response key user_input w)
  = fst (get_cohere_response [] [] (mock (answer key user_input w))).
Proof.
  run_client. unfold answer at 2. cbn [network mock mk_World].
  split_cases; reflexivity.
Qed.

(** Only a [print] of an [except] clause can make the client raise. *)
Lemma get_cohere_response_raises (key user_input : str) (w : World) (e : exc) :
  fst (get_cohere_response key user_input w) = Raise e ->
  e = unicode_encode_error.
Proof. run_client. split_cases; intros [= <-]; reflexivity. Qed.

(** *** The [except] clauses *)

Lemma get_cohere_response_post_raised (key user_input : str) (w : World) (e : exc) :
  answer key user_input w = Raise e ->
  fst (get_cohere_response key user_input w) = caught e.
Proof.
  intros Hans. run_client. rewrite Hans. simp_client.
  unfold caught, unprintable, message_of_exception.
  destruct (is_Timeout (exc_cls e)), (is_ConnectionError (exc_cls e)),
    (is_RequestException (exc_cls e)); cbn [orb]; simp_client; try reflexivity.
  - destruct (has_surrogate (exc_str e)); cbn [orb]; [reflexivity |].
    destruct (exc_response_text e) as [t|]; simp_client; [| reflexivity].
    destruct (has_surrogate t); reflexivity.
  - destruct (has_surrogate (exc_str e)); reflexivity.
Qed.

(** Up to [raise_for_status], for a response that is neither a 401 nor a
    429. *)
Ltac past_status Hans H401 H429 :=
  run_client; rewrite Hans; simp_client;
  match goal with
  | |- context [status_code ?r =? 401] =>
    destruct (Z.eqb_spec (status_code r) 401); [done |];
    destruct (Z.eqb_spec (status_code r) 429); [done |]
  end.

(** Up to the decoding of the body, for a response that passes the status
    checks. *)
Ltac read_body Hans H401 H429 Hst :=
  past_status Hans H401 H429; rewrite (raise_for_status_ok _ Hst); simp_client.

Lemma get_cohere_response_http_error (key user_input : str) (w : World)
    (response : Response) :
  answer key user_input w = Return response ->
  status_code response <> 401 -> status_code response <> 429 ->
  400 <= status_code response < 600 ->
  fst (get_cohere_response key user_input w) = caught (http_error response).
Proof.
  intros Hans H401 H429 Hst. past_status Hans H401 H429.
  rewrite (raise_for_status_error _ Hst). fold (http_error response).
  simp_client. unfold caught, unprintable, message_of_exception.
  cbn [http_error exc_cls exc_str exc_response_text is_Timeout
       is_ConnectionError is_RequestException orb].
  destruct (has_surrogate _); cbn [orb]; [reflexivity |].
  destruct (has_surrogate (resp_text response)); reflexivity.
Qed.

Lemma get_cohere_response_json_raised (key user_input : str) (w : World)
    (response : Response) (e : exc) :
  answer key user_input w = Return response ->
  status_code response <> 401 -> status_code response <> 429 ->
  ~ (400 <= status_code response < 600) ->
  resp_json response = Raise e ->
  fst (get_cohere_response key user_input w) = caught e.
Proof.
  intros Hans H401 H429 Hst Hj. read_body Hans H401 H429 Hst. rewrite Hj.
  simp_client. unfold caught, unprintable, message_of_exception.
  destruct (is_Timeout (exc_cls e)), (is_ConnectionError (exc_cls e)),
    (is_RequestException (exc_cls e)); cbn [orb]; simp_client; try reflexivity.
  - destruct (has_surrogate (exc_str e)); cbn [orb]; [reflexivity |].
    destruct (exc_response_text e) as [t|]; simp_client; [| reflexivity].
    destruct (has_surrogate t); reflexivity.
  - destruct (has_surrogate (exc_str e)); reflexivity.
Qed.

Lemma http_error_unprintable (response : Response) :
  unprintable (http_error response)
  = has_surrogate (reason response) || has_surrogate (resp_url response)
    || has_surrogate (resp_text response).
Proof.
  unfold unprintable, http_error.
  cbn [exc_cls exc_str exc_response_text is_Timeout is_ConnectionError
       is_RequestException orb].
  rewrite !has_surrogate_app, str_of_int_printable.
  destruct (status_code response <? 500); literals; cbn [orb];
    by rewrite ?orb_false_r.
Qed.

Lemma message_of_exception_nonempty (e : exc) : message_of_exception e <> [].
Proof.
  unfold message_of_exception.
  destruct (is_Timeout (exc_cls e)), (is_ConnectionError (exc_cls e)),
    (is_RequestException (exc_cls e)); discriminate.
Qed.

(** *** The body *)

Lemma get_cohere_response_wellformed (key user_input : str) (w : World)
    (response : Response) (d g : gmap str pyval) (rest : list pyval)
    (text : pyval) :
  answer key user_input w = Return response ->
  status_code response <> 401 -> status_code response <> 429 ->
  ~ (400 <= status_code response < 600) ->
  resp_json response = Return (PDict d) ->
  d !! K_generations = Some (PList (PDict g :: rest)) ->
  g !! K_text = Some text ->
  fst (get_cohere_response key user_input w) =
  match py_strip text with
  | Return s => Return s
  | Raise _ => Return MSG_UNEXPECTED
  end.
Proof.
  intros Hans H401 H429 Hst Hj Hd Hg. read_body Hans H401 H429 Hst. rewrite Hj.
  cbn [py_contains py_getitem_str]. rewrite Hd.
  rewrite bool_decide_eq_true_2 by eauto.
  cbn [py_len length py_getitem_0 py_getitem_str fst snd]. rewrite Hg.
  replace (0 <? Z.of_nat (S (length rest))) with true
    by (symmetry; apply Z.ltb_lt; lia).
  destruct text; reflexivity.
Qed.

Lemma get_cohere_response_guard_false (key user_input : str) (w : World)
    (response : Response) (d : gmap str pyval) :
  answer key user_input w = Return response ->
  status_code response <> 401 -> status_code response <> 429 ->
  ~ (400 <= status_code response < 600) ->
  resp_json response = Return (PDict d) ->
  d !! K_generations = None \/ d !! K_generations = Some (PList []) ->
  fst (get_cohere_response key user_input w) = Return MSG_MISSING_DATA.
Proof.
  intros Hans H401 H429 Hst Hj Hd. read_body Hans H401 H429 Hst. rewrite Hj.
  cbn [py_contains py_getitem_str]. destruct Hd as [Hd | Hd]; rewrite Hd.
  - rewrite bool_decide_eq_false_2; [reflexivity |]. by intros [x Hx].
  - rewrite bool_decide_eq_true_2 by eauto. reflexivity.
Qed.

(** *** The errors of the operations on Python values *)

Lemma quiet_caught (e : exc) :
  quiet e ->
  is_Timeout (exc_cls e) = false
  /\ is_ConnectionError (exc_cls e) = false
  /\ is_RequestException (exc_cls e) = false
  /\ has_surrogate (exc_str e) = false.
Proof.
  intros [Hc Hs]. destruct (exc_cls e); cbn in Hc |- *; try discriminate; done.
Qed.

Lemma type_name_printable (v : pyval) : has_surrogate (type_name v) = false.
Proof. destruct v; reflexivity. Qed.

Ltac quiet_error :=
  split; [reflexivity |];
  cbn [exc_str mk_exc];
  rewrite ?has_surrogate_app, ?type_name_printable; literals; reflexivity.

Lemma py_contains_Raise (k : str) (v : pyval) (e : exc) :
  py_contains k v = Raise e -> quiet e.
Proof. destruct v; cbn [py_contains]; intros [= <-]; quiet_error. Qed.

Lemma py_getitem_str_Raise (v : pyval) (k : str) (e : exc) :
  has_surrogate k = false -> py_getitem_str v k = Raise e -> quiet e.
Proof.
  intros Hk.
  destruct v as [| | | | | |d]; cbn [py_getitem_str];
    try (intros [= <-]; quiet_error).
  destruct (d !! k); intros [= <-]. split; [reflexivity |].
  change (has_surrogate (u "'" ++ k ++ u "'") = false).
  rewrite !has_surrogate_app, Hk. reflexivity.
Qed.

Lemma py_getitem_0_Raise (v : pyval) (e : exc) :
  py_getitem_0 v = Raise e -> quiet e.
Proof.
  destruct v as [| | | |s|l|]; cbn [py_getitem_0];
    try (intros [= <-]; quiet_error).
  - destruct s; intros [= <-]; quiet_error.
  - destruct l; intros [= <-]; quiet_error.
Qed.

Lemma py_len_Raise (v : pyval) (e : exc) : py_len v = Raise e -> quiet e.
Proof. destruct v; cbn [py_len]; intros [= <-]; quiet_error. Qed.

Lemma py_strip_Raise (v : pyval) (e : exc) : py_strip v = Raise e -> quiet e.
Proof. destruct v; cbn [py_strip]; intros [= <-]; quiet_error. Qed.

(** Case analysis on the operations and on the texts printed, not on the
    class of an exception nor on its text. *)
Ltac split_ops :=
  repeat match goal with
  | |- context [match ?x with _ => _ end] =>
    lazymatch x with
    | context [match _ with _ => _ end] => fail
    | is_Timeout _ => fail
    | is_ConnectionError _ => fail
    | is_RequestException _ => fail
    | has_surrogate (exc_str _) => fail
    | _ => destruct x eqn:?; simp_client
    end
  end.

(** The clause each error of an operation ends in. *)
Ltac absorb_builtin :=
  repeat match goal with
  | H : py_contains _ _ = Raise _ |- _ => apply py_contains_Raise in H
  | H : py_getitem_str _ _ = Raise _ |- _ =>
    apply py_getitem_str_Raise in H; [| reflexivity]
  | H : py_getitem_0 _ = Raise _ |- _ => apply py_getitem_0_Raise in H
  | H : py_len _ = Raise _ |- _ => apply py_len_Raise in H
  | H : py_strip _ = Raise _ |- _ => apply py_strip_Raise in H
  | H : quiet ?e |- _ =>
    destruct (quiet_caught e H) as (-> & -> & -> & ->); clear H
  end;
  cbn [unicode_encode_error mk_exc is_Timeout is_ConnectionError
       is_RequestException];
  simp_client.

(** ** The claims about the client *)

(** C1, as stated, fails: with a non-empty prompt and a 200 response whose
    first text is three spaces, the result is the empty string. *)
Lemma get_cohere_response_blank_text_gives_empty :
  ~ (forall (key user_input : str) (w : World),
       user_input <> [] ->
       exists s, fst (get_cohere_response key user_input w) = Return s /\ s <> []).
Proof.
  intros H.
  destruct (H sample_key sample_prompt (mock (Return (ok_response body_blank))))
    as [s [Hs Hne]]; [discriminate |].
  vm_compute in Hs. injection Hs as <-. by apply Hne.
Qed.

Lemma get_cohere_response_body_result (key user_input : str) (w : World)
    (response : Response) (body : pyval) :
  answer key user_input w = Return response ->
  status_code response <> 401 -> status_code response <> 429 ->
  ~ (400 <= status_code response < 600) ->
  resp_json response = Return body ->
  exists s,
    fst (get_cohere_response key user_input w) = Return s
    /\ (s = [] -> exists t, first_text body = Some (PStr t) /\ blank t).
Proof.
  intros Hans H401 H429 Hst Hj.
  read_body Hans H401 H429 Hst; rewrite Hj; split_ops; absorb_builtin;
    cbn [fst]; eexists; (split; [reflexivity |]); try discriminate.
  match goal with
  | Hg : py_getitem_str _ K_generations = Return _,
    H0 : py_getitem_0 _ = Return _,
    Ht : py_getitem_str _ K_text = Return _,
    Hs : py_strip _ = Return _ |- _ =>
    destruct (success_shape _ _ _ _ _ Hg H0 Ht Hs) as [t' [Hft' ->]]
  end.
  intros Hs. apply strip_nil in Hs. eauto.
Qed.

Lemma get_cohere_response_returns_if_printable (key user_input : str) (w : World) :
  printable_answer (answer key user_input w) = true ->
  exists s, fst (get_cohere_response key user_input w) = Return s /\
            (s = [] ->
             exists response body t,
               answer key user_input w = Return response
               /\ status_code response <> 401 /\ status_code response <> 429
               /\ ~ (400 <= status_code response < 600)
               /\ resp_json response = Return body
               /\ first_text body = Some (PStr t)
               /\ blank t).
Proof.
  intros Hp. destruct (answer key user_input w) as [response|e] eqn:Hans;
    cbn [printable_answer] in Hp.
  2: { rewrite (get_cohere_response_post_raised _ _ _ _ Hans). unfold caught.
       apply negb_true_iff in Hp. rewrite Hp. eexists. split; [reflexivity |].
       intros H. by destruct (message_of_exception_nonempty e). }
  apply andb_true_iff in Hp as [Hp Hj].
  destruct (Z.eq_dec (status_code response) 401) as [H401|H401].
  { exists MSG_API_KEY_ERROR. split; [| discriminate].
    run_client. rewrite Hans. simp_client. by rewrite H401. }
  destruct (Z.eq_dec (status_code response) 429) as [H429|H429].
  { exists MSG_RATE_LIMITED. split; [| discriminate].
    run_client. rewrite Hans. simp_client. by rewrite H429. }
  destruct (decide (400 <= status_code response < 600)) as [Hst|Hst].
  { rewrite (get_cohere_response_http_error _ _ _ _ Hans H401 H429 Hst).
    unfold caught. rewrite http_error_unprintable.
    apply andb_true_iff in Hp as [Hp Ht]. apply andb_true_iff in Hp as [Hr Hu].
    apply negb_true_iff in Hr, Hu, Ht. rewrite Hr, Hu, Ht. cbn [orb].
    eexists. split; [reflexivity |].
    intros H. by destruct (message_of_exception_nonempty (http_error response)). }
  destruct (resp_json response) as [body|e] eqn:Hjson.
  2: { rewrite (get_cohere_response_json_raised _ _ _ _ _ Hans H401 H429 Hst Hjson).
       unfold caught. apply negb_true_iff in Hj. rewrite Hj.
       eexists. split; [reflexivity |].
       intros H. by destruct (message_of_exception_nonempty e). }
  destruct (get_cohere_response_body_result key user_input w response body
              Hans H401 H429 Hst Hjson) as [s [Hs Hblank]].
  exists s. split; [exact Hs |].
  intros E. destruct (Hblank E) as [t [Hft Hb]]. eauto 12.
Qed.

(** C1, amended: for every prompt and every answer of the network whose
    texts have no lone surrogate, [get_cohere_response] returns a string and
    raises nothing; the string is non-empty unless the answer is a response
    that passes the status checks, with a body of the expected shape whose
    first text is empty or all white space, and the result is then the empty
    string. *)
Theorem get_cohere_response_returns_nonempty_unless_blank
    (key user_input : str) (w : World) :
  (printable_answer (answer key user_input w) = true ->
   exists s,
     fst (get_cohere_response key user_input w) = Return s
     /\ (s <> []
         \/ s = []
            /\ exists response body t,
                 answer key user_input w = Return response
                 /\ status_code response <> 401 /\ status_code response <> 429
                 /\ ~ (400 <= status_code response < 600)
                 /\ resp_json response = Return body
                 /\ first_text body = Some (PStr t)
                 /\ blank t))
  /\ (forall response body t,
        answer key user_input w = Return response ->
        status_code response <> 401 -> status_code response <> 429 ->
        ~ (400 <= status_code response < 600) ->
        resp_json response = Return body ->
        first_text body = Some (PStr t) ->
        blank t ->
        fst (get_cohere_response key user_input w) = Return []).
Proof.
  split.
  - intros Hp.
    destruct (get_cohere_response_returns_if_printable key user_input w Hp)
      as [s [Hs Hblank]].
    exists s. split; [exact Hs |].
    destruct s as [|c s]; [right | left; discriminate]. split; auto.
  - intros response body t Hans H401 H429 Hst Hj Hft Hb.
    apply first_text_shape in Hft as [d [g [rest [-> [Hd Hg]]]]].
    rewrite (get_cohere_response_wellformed key user_input w response d g rest
               (PStr t)); [| done ..].
    cbn [py_strip]. apply strip_nil in Hb. by rewrite Hb.
Qed.

(** A 200 response with the greeting, and one whose first text is blank. *)
Lemma get_cohere_response_returns_samples :
  (exists s, fst (get_cohere_response sample_key sample_prompt
                    (mock (Return (ok_response body_hello)))) = Return s
             /\ s <> [])
  /\ fst (get_cohere_response sample_key sample_prompt
            (mock (Return (ok_response body_blank)))) = Return [].
Proof.
  split.
  - destruct (get_cohere_response_returns_nonempty_unless_blank sample_key
                sample_prompt (mock (Return (ok_response body_hello))))
      as [H _].
    destruct H as [s [Hs [Hne | [-> _]]]]; [reflexivity | eauto |].
    vm_compute in Hs. discriminate.
  - destruct (get_cohere_response_returns_nonempty_unless_blank sample_key
                sample_prompt (mock (Return (ok_response body_blank))))
      as [_ H].
    apply (H (ok_response body_blank) body_blank (u "   "));
      [reflexivity | discriminate | discriminate | cbn; lia | reflexivity
      | reflexivity | reflexivity].
Defined.

(** C2: for a 2xx response whose body is an object with a non-empty
    [generations] array whose first element is an object with a string
    [text], the result is that text stripped: the text is the result between
    two runs of white space, and the result neither starts nor ends with
    white space. *)
Theorem get_cohere_response_success (key user_input : str) (w : World)
    (response : Response) (body : pyval) (t : str) :
  answer key user_input w = Return response ->
  200 <= status_code response < 300 ->
  resp_json response = Return body ->
  first_text body = Some (PStr t) ->
  fst (get_cohere_response key user_input w) = Return (strip t)
  /\ (exists l r, t = l ++ strip t ++ r /\ blank l /\ blank r)
  /\ (forall c, head (strip t) = Some c -> isspace c = false)
  /\ (forall c, last (strip t) = Some c -> isspace c = false).
Proof.
  intros Hans Hst Hj Hft.
  apply first_text_shape in Hft as [d [g [rest [-> [Hd Hg]]]]].
  split; [| split; [apply strip_split | split; [apply strip_head | apply strip_last]]].
  rewrite (get_cohere_response_wellformed key user_input w response d g rest
             (PStr t)); [reflexivity | done | lia | lia | lia | done | done | done].
Qed.

(** The body [{"generations":[{"text":" Hello there "}]}] gives
    ["Hello there"]. *)
Lemma get_cohere_response_success_hello :
  fst (get_cohere_response sample_key sample_prompt
         (mock (Return (ok_response body_hello))))
  = Return (u "Hello there").
Proof.
  destruct (get_cohere_response_success sample_key sample_prompt
              (mock (Return (ok_response body_hello)))
              (ok_response body_hello) body_hello (u " Hello there ")) as [H _].
  - reflexivity.
  - cbn. lia.
  - reflexivity.
  - reflexivity.
  - rewrite H. reflexivity.
Defined.

(** C3, as stated, fails: a response with status 300 is neither 401, nor 429,
    nor 2xx, and its well-formed body is read like that of a 200. *)
Lemma get_cohere_response_status_300_is_read :
  ~ (forall (key user_input : str) (w : World) (response : Response),
       answer key user_input w = Return response ->
       status_code response <> 401 -> status_code response <> 429 ->
       ~ (200 <= status_code response < 300) ->
       exists detail,
         fst (get_cohere_response key user_input w)
         = Return (MSG_API_ERROR_PREFIX ++ detail)).
Proof.
  intros H.
  destruct (H sample_key sample_prompt (mock (Return response_300)) response_300)
    as [detail Hd]; [reflexivity | discriminate | discriminate | cbn; lia |].
  vm_compute in Hd. discriminate.
Qed.

(** C3, amended: a 401 response gives the fixed unauthorized message, a 429
    response the fixed rate-limited message, and every other response with a
    status from 400 to 599 the API-error message followed by the text of the
    [HTTPError], when the reason, the URL and the body text of the response
    have no lone surrogate; the three messages are pairwise different,
    whatever the error detail. *)
Theorem get_cohere_response_status (key user_input : str) (w : World)
    (response : Response) :
  answer key user_input w = Return response ->
  (status_code response = 401 ->
   fst (get_cohere_response key user_input w) = Return MSG_API_KEY_ERROR)
  /\ (status_code response = 429 ->
      fst (get_cohere_response key user_input w) = Return MSG_RATE_LIMITED)
  /\ (400 <= status_code response < 600 ->
      status_code response <> 401 -> status_code response <> 429 ->
      has_surrogate (reason response) = false ->
      has_surrogate (resp_url response) = false ->
      has_surrogate (resp_text response) = false ->
      fst (get_cohere_response key user_input w)
      = Return (MSG_API_ERROR_PREFIX
                ++ str_of_int (status_code response)
                ++ (if status_code response <? 500 then u " Client Error: "
                    else u " Server Error: ")
                ++ reason response ++ u " for url: " ++ resp_url response))
  /\ MSG_API_KEY_ERROR <> MSG_RATE_LIMITED
  /\ (forall detail, MSG_API_KEY_ERROR <> MSG_API_ERROR_PREFIX ++ detail)
  /\ (forall detail, MSG_RATE_LIMITED <> MSG_API_ERROR_PREFIX ++ detail).
Proof.
  intros Hans. split_and!; try discriminate.
  - intros Hs. run_client. rewrite Hans. simp_client. by rewrite Hs.
  - intros Hs. run_client. rewrite Hans. simp_client. by rewrite Hs.
  - intros Hst H401 H429 Hr Hu Ht.
    rewrite (get_cohere_response_http_error _ _ _ _ Hans H401 H429 Hst).
    unfold caught. by rewrite http_error_unprintable, Hr, Hu, Ht.
Qed.

(** A 404 response. *)
Lemma get_cohere_response_status_404 :
  answer sample_key sample_prompt (mock (Return response_404)) = Return response_404
  /\ fst (get_cohere_response sample_key sample_prompt (mock (Return response_404)))
     = Return (u "⚠️ **API Error**: 404 Client Error: Not Found for url: https://api.cohere.ai/v1/generate").
Proof.
  split; [reflexivity |].
  destruct (get_cohere_response_status sample_key sample_prompt
              (mock (Return response_404)) response_404 eq_refl)
    as [_ [_ [H _]]].
  rewrite H; [vm_compute; reflexivity | cbn; lia | discriminate | discriminate
             | reflexivity | reflexivity | reflexivity].
Defined.

(** C4, as stated, fails: for the 200 body [{"generations":[{}]}], whose
    first element has no [text], the result is the generic unexpected-error
    message. *)
Lemma get_cohere_response_missing_text_is_unexpected :
  ~ (forall (key user_input : str) (w : World) (response : Response)
            (body : pyval),
       answer key user_input w = Return response ->
       200 <= status_code response < 300 ->
       resp_json response = Return body ->
       first_text body = None ->
       fst (get_cohere_response key user_input w) = Return MSG_MISSING_DATA).
Proof.
  intros H.
  specialize (H sample_key sample_prompt (mock (Return (ok_response body_no_text)))
                (ok_response body_no_text) body_no_text).
  assert (Hr : fst (get_cohere_response sample_key sample_prompt
                      (mock (Return (ok_response body_no_text))))
               = Return MSG_UNEXPECTED) by (vm_compute; reflexivity).
  rewrite Hr in H.
  assert (Hne : Return MSG_UNEXPECTED <> Return MSG_MISSING_DATA :> pyresult str)
    by discriminate.
  apply Hne, H; [reflexivity | cbn; lia | reflexivity | reflexivity].
Qed.

(** C4, amended: for every 2xx response whose body is an object in which
    [generations] is missing or is an empty array, the result is the fixed
    missing-data message. *)
Theorem get_cohere_response_missing_generations (key user_input : str)
    (w : World) (response : Response) (d : gmap str pyval) :
  answer key user_input w = Return response ->
  200 <= status_code response < 300 ->
  resp_json response = Return (PDict d) ->
  d !! K_generations = None \/ d !! K_generations = Some (PList []) ->
  fst (get_cohere_response key user_input w) = Return MSG_MISSING_DATA.
Proof.
  intros Hans Hst Hj Hd.
  apply (get_cohere_response_guard_false key user_input w response d);
    [done | lia | lia | lia | done | done].
Qed.

(** The bodies [{"generations":[]}] and [{}]. *)
Lemma get_cohere_response_missing_generations_samples :
  fst (get_cohere_response sample_key sample_prompt
         (mock (Return (ok_response body_empty_generations))))
  = Return MSG_MISSING_DATA
  /\ fst (get_cohere_response sample_key sample_prompt
            (mock (Return (ok_response body_no_generations))))
     = Return MSG_MISSING_DATA.
Proof.
  split.
  - apply (get_cohere_response_missing_generations sample_key sample_prompt _
             (ok_response body_empty_generations)
             {[ K_generations := PList [] ]});
      [reflexivity | cbn; lia | reflexivity | right; reflexivity].
  - apply (get_cohere_response_missing_generations sample_key sample_prompt _
             (ok_response body_no_generations) ∅);
      [reflexivity | cbn; lia | reflexivity | left; reflexivity].
Defined.

(** C5, as stated, fails: [TooManyRedirects] is neither a timeout nor a
    connection failure, and the result embeds its text after the API-error
    prefix. *)
Lemma get_cohere_response_too_many_redirects :
  ~ (forall (key user_input : str) (w : World) (e : exc),
       answer key user_input w = Raise e ->
       is_Timeout (exc_cls e) = false ->
       is_ConnectionError (exc_cls e) = false ->
       fst (get_cohere_response key user_input w) = Return MSG_UNEXPECTED).
Proof.
  intros H.
  specialize (H sample_key sample_prompt (mock (Raise too_many_redirects))
                too_many_redirects eq_refl eq_refl eq_refl).
  vm_compute in H. discriminate.
Qed.

(** C5, amended: when [requests.post] raises, a timeout gives the fixed
    timeout message; otherwise a connection failure gives the fixed
    connection-error message; otherwise any other exception of [requests]
    gives the API-error message followed by the text of the exception, when
    that text and the text of the response the exception carries have no
    lone surrogate; otherwise the result is the fixed unexpected-error
    message, when the text of the exception has no lone surrogate.  Whenever
    the texts of the answer have no lone surrogate, a string is returned and
    nothing is raised. *)
Theorem get_cohere_response_post_raises (key user_input : str) (w : World) :
  (forall e,
     answer key user_input w = Raise e ->
     (is_Timeout (exc_cls e) = true ->
      fst (get_cohere_response key user_input w) = Return MSG_TIMEOUT)
     /\ (is_Timeout (exc_cls e) = false ->
         is_ConnectionError (exc_cls e) = true ->
         fst (get_cohere_response key user_input w) = Return MSG_CONNECTION_ERROR)
     /\ (is_Timeout (exc_cls e) = false ->
         is_ConnectionError (exc_cls e) = false ->
         is_RequestException (exc_cls e) = true ->
         has_surrogate (exc_str e) = false ->
         (forall response_text,
            exc_response_text e = Some response_text ->
            has_surrogate response_text = false) ->
         fst (get_cohere_response key user_input w)
         = Return (MSG_API_ERROR_PREFIX ++ exc_str e))
     /\ (is_RequestException (exc_cls e) = false ->
         has_surrogate (exc_str e) = false ->
         fst (get_cohere_response key user_input w) = Return MSG_UNEXPECTED))
  /\ (printable_answer (answer key user_input w) = true ->
      exists s, fst (get_cohere_response key user_input w) = Return s).
Proof.
  split.
  2: { intros Hp.
       destruct (get_cohere_response_returns_if_printable key user_input w Hp)
         as [s [Hs _]]. eauto. }
  intros e Hans. rewrite (get_cohere_response_post_raised _ _ _ _ Hans).
  unfold caught, unprintable, message_of_exception. split_and!.
  - by intros ->.
  - intros -> ->. reflexivity.
  - intros -> -> -> -> Ht. cbn [orb].
    destruct (exc_response_text e) as [t|]; [| reflexivity].
    by rewrite (Ht t eq_refl).
  - intros Hr Hs. rewrite Hr, Hs.
    destruct (exc_cls e); try discriminate; reflexivity.
Qed.

(** A connect timeout, which is also a connection failure, and a redirect
    loop. *)
Lemma get_cohere_response_post_raises_samples :
  fst (get_cohere_response sample_key sample_prompt
         (mock (Raise (mk_exc ConnectTimeout []))))
  = Return MSG_TIMEOUT
  /\ fst (get_cohere_response sample_key sample_prompt
            (mock (Raise too_many_redirects)))
     = Return (u "⚠️ **API Error**: Exceeded 30 redirects.").
Proof.
  split.
  - destruct (get_cohere_response_post_raises sample_key sample_prompt
                (mock (Raise (mk_exc ConnectTimeout [])))) as [H _].
    destruct (H (mk_exc ConnectTimeout []) eq_refl) as [Ht _].
    apply Ht. reflexivity.
  - destruct (get_cohere_response_post_raises sample_key sample_prompt
                (mock (Raise too_many_redirects))) as [H _].
    destruct (H too_many_redirects eq_refl) as [_ [_ [Hr _]]].
    rewrite Hr; [vm_compute; reflexivity | reflexivity | reflexivity
                | reflexivity | reflexivity |].
    intros t [= <-]. reflexivity.
Defined.

(** C6: one call of [get_cohere_response] makes exactly one call of
    [requests.post], whatever the prompt and the answer, and touches nothing
    else; two calls with the same prompt make two, and the second answer is
    asked of the network anew, after the first request. *)
Theorem get_cohere_response_posts_once (key user_input : str) (w : World) :
  let w1 := snd (get_cohere_response key user_input w) in
  let w2 := snd (get_cohere_response key user_input w1) in
  posted w1 = posted w ++ [the_request key user_input]
  /\ length (posted w1) = S (length (posted w))
  /\ bot_calls w1 = bot_calls w
  /\ posted w2 = posted w ++ [the_request key user_input; the_request key user_input]
  /\ length (posted w2) = S (S (length (posted w)))
  /\ answer key user_input w1
     = network w (posted w ++ [the_request key user_input])
         (the_request key user_input)
  /\ fst (get_cohere_response key user_input w1)
     = fst (get_cohere_response key user_input
              (mock (network w (posted w ++ [the_request key user_input])
                       (the_request key user_input)))).
Proof.
  cbn zeta. rewrite !get_cohere_response_world. unfold after_post, answer.
  cbn [posted network bot_calls].
  repeat split.
  - rewrite length_app. cbn. lia.
  - by rewrite <- app_assoc.
  - rewrite !length_app. cbn. lia.
  - rewrite get_cohere_response_result.
    rewrite (get_cohere_response_result key user_input (mock _)).
    reflexivity.
Qed.

(** C9: two calls with the same key and prompt whose requests get the same
    answer return the same result, whatever else differs between the two
    worlds. *)
Theorem get_cohere_response_deterministic (key user_input : str) (w1 w2 : World) :
  answer key user_input w1 = answer key user_input w2 ->
  fst (get_cohere_response key user_input w1)
  = fst (get_cohere_response key user_input w2).
Proof.
  intros H. rewrite (get_cohere_response_result key user_input w1).
  rewrite (get_cohere_response_result key user_input w2). by rewrite H.
Qed.

(** Two worlds with different logs and different bots. *)
Lemma get_cohere_response_deterministic_sample :
  fst (get_cohere_response sample_key sample_prompt
         (mock (Return (ok_response body_hello))))
  = fst (get_cohere_response sample_key sample_prompt
           (mk_World (fun _ _ => Return (ok_response body_hello))
                     [the_request sample_key sample_prompt]
                     (fun _ _ => Some too_many_redirects)
                     [send_message 5 sample_prompt] [])).
Proof.
  apply get_cohere_response_deterministic. reflexivity.
Defined.

(** C10: the prompt is not checked: for every string, the empty one
    included, the call posts one request, to the generation URL, whose
    [prompt] field is that string. *)
Theorem get_cohere_response_posts_any_prompt (key user_input : str) (w : World) :
  exists rq,
    posted (snd (get_cohere_response key user_input w)) = posted w ++ [rq]
    /\ req_url rq = URL
    /\ req_json rq !! K_prompt = Some (PStr user_input).
Proof.
  exists (the_request key user_input).
  rewrite get_cohere_response_world.
  split; [reflexivity | split; [reflexivity |]].
  unfold the_request, data. cbn [req_json]. vm_compute. reflexivity.
Qed.

(** The empty prompt is posted like any other. *)
Lemma get_cohere_response_posts_empty_prompt :
  exists rq,
    posted (snd (get_cohere_response sample_key [] (mock (Raise too_many_redirects))))
    = [rq]
    /\ req_json rq !! K_prompt = Some (PStr []).
Proof.
  destruct (get_cohere_response_posts_any_prompt sample_key []
              (mock (Raise too_many_redirects))) as [rq [Hp [_ He]]].
  exists rq. split; [exact Hp | exact He].
Defined.


(** ** The relay *)

(** C7 fails on the code: for an update whose [message] is [None], the first
    line of the [try] block raises before [chat_id] is bound, the [except]
    clause then reads the unbound [chat_id], and the handler raises
    [UnboundLocalError]; no apology is sent. *)
Theorem handle_message_unbound_chat_id (key : str) (usr : option User) (w : World) :
  exists e,
    fst (handle_message key (mk_Update None usr) w) = Raise e
    /\ exc_cls e = UnboundLocalError
    /\ snd (handle_message key (mk_Update None usr) w) = w.
Proof.
  eexists. split; [reflexivity | split; reflexivity].
Qed.

(** An edited message, with every service up: the handler raises and the
    bot is never called. *)
Example handle_message_edited_message :
  exc_cls <$> match fst (handle_message sample_key update_edited
                           (mock (Return (ok_response body_hello)))) with
              | Return _ => None
              | Raise e => Some e
              end
  = Some UnboundLocalError
  /\ bot_calls (snd (handle_message sample_key update_edited
                       (mock (Return (ok_response body_hello))))) = [].
Proof. split; reflexivity. Qed.


(** ** Start-up *)



(** * Further properties *)

(** ** More about the client *)

(** What a decoded body can lead to: the stripped first text when the body
    has the expected shape with a string text, and otherwise one of the two
    fixed messages; nothing else of the body reaches the result. *)
Theorem get_cohere_response_body_outcomes (key user_input : str) (w : World)
    (response : Response) (body : pyval) :
  answer key user_input w = Return response ->
  status_code response <> 401 -> status_code response <> 429 ->
  ~ (400 <= status_code response < 600) ->
  resp_json response = Return body ->
  (exists t, first_text body = Some (PStr t)
             /\ fst (get_cohere_response key user_input w) = Return (strip t))
  \/ (forall t, first_text body <> Some (PStr t))
     /\ (fst (get_cohere_response key user_input w) = Return MSG_MISSING_DATA
         \/ fst (get_cohere_response key user_input w) = Return MSG_UNEXPECTED).
Proof.
  intros Hans H401 H429 Hst Hj.
  destruct (first_text body) as [[| | | |t| |]|] eqn:Hft;
    try (right; split; [discriminate |]);
    [| | | | left; exists t; split; [done |] | | |].
  5: { apply first_text_shape in Hft as [d [g [rest [-> [Hd Hg]]]]].
       by rewrite (get_cohere_response_wellformed key user_input w response
                     d g rest (PStr t)). }
  all: read_body Hans H401 H429 Hst; rewrite Hj; split_ops; absorb_builtin;
    cbn [fst]; auto.
  all: match goal with
       | Hg : py_getitem_str _ K_generations = Return _,
         H0 : py_getitem_0 _ = Return _,
         Ht : py_getitem_str _ K_text = Return _,
         Hs : py_strip _ = Return _ |- _ =>
         destruct (success_shape _ _ _ _ _ Hg H0 Ht Hs) as [t' [Hft' _]];
         congruence
       end.
Qed.

(** The body [{"generations":[{}]}] has no first text, and ends in one of
    the two fixed messages. *)
Lemma get_cohere_response_body_outcomes_sample :
  fst (get_cohere_response sample_key sample_prompt
         (mock (Return (ok_response body_no_text))))
  = Return MSG_MISSING_DATA
  \/ fst (get_cohere_response sample_key sample_prompt
            (mock (Return (ok_response body_no_text))))
     = Return MSG_UNEXPECTED.
Proof.
  destruct (get_cohere_response_body_outcomes sample_key sample_prompt
              (mock (Return (ok_response body_no_text)))
              (ok_response body_no_text) body_no_text)
    as [[t [Hft _]] | [_ H]];
    [reflexivity | discriminate | discriminate | cbn; lia | reflexivity | |].
  - vm_compute in Hft. discriminate.
  - exact H.
Defined.

(** A response with a status outside 400-599, not only a 2xx one, is read
    as a success: a body of the expected shape gives its stripped text. *)
Theorem get_cohere_response_status_outside_errors (key user_input : str)
    (w : World) (response : Response) (body : pyval) (t : str) :
  answer key user_input w = Return response ->
  status_code response < 400 \/ 600 <= status_code response ->
  resp_json response = Return body ->
  first_text body = Some (PStr t) ->
  fst (get_cohere_response key user_input w) = Return (strip t).
Proof.
  intros Hans Hst Hj Hft.
  apply first_text_shape in Hft as [d [g [rest [-> [Hd Hg]]]]].
  rewrite (get_cohere_response_wellformed key user_input w response d g rest
             (PStr t)); [reflexivity | done | lia | lia | lia | done | done | done].
Qed.

Ltac sample_side :=
  first [ reflexivity | discriminate | by (cbn; lia) | by intros ].

(** A redirect without a location, a status of 600 and a status of 0. *)
Lemma get_cohere_response_status_outside_errors_samples :
  fst (get_cohere_response sample_key sample_prompt (mock (Return response_300)))
  = Return (u "Hello there")
  /\ fst (get_cohere_response sample_key sample_prompt
            (mock (Return (mk_Response 600 [] URL (Return body_hello)))))
     = Return (u "Hello there").
Proof.
  split.
  - rewrite (get_cohere_response_status_outside_errors sample_key sample_prompt
               (mock (Return response_300)) response_300 body_hello
               (u " Hello there "));
      [reflexivity | reflexivity | left; cbn; lia | reflexivity | reflexivity].
  - rewrite (get_cohere_response_status_outside_errors sample_key sample_prompt
               (mock (Return (mk_Response 600 [] URL (Return body_hello))))
               (mk_Response 600 [] URL (Return body_hello)) body_hello
               (u " Hello there "));
      [reflexivity | reflexivity | right; cbn; lia | reflexivity | reflexivity].
Defined.



(** An object whose [generations] is not an array: when [len] gives 0 (an
    empty string, an empty object) the result is the missing-data message,
    as for an empty array; when [len] raises (a number, a boolean, null) or
    gives more than 0 (a non-empty string or object, whose element 0 has no
    [text]), it is the unexpected-error message. *)
Theorem get_cohere_response_generations_not_an_array (key user_input : str)
    (w : World) (response : Response) (d : gmap str pyval) (g : pyval) :
  answer key user_input w = Return response ->
  status_code response <> 401 -> status_code response <> 429 ->
  ~ (400 <= status_code response < 600) ->
  resp_json response = Return (PDict d) ->
  d !! K_generations = Some g ->
  (forall l, g <> PList l) ->
  fst (get_cohere_response key user_input w)
  = Return (match py_len g with
            | Return 0 => MSG_MISSING_DATA
            | _ => MSG_UNEXPECTED
            end).
Proof.
  intros Hans H401 H429 Hst Hj Hd Hg.
  read_body Hans H401 H429 Hst. rewrite Hj.
  cbn [py_contains py_getitem_str]. rewrite Hd.
  rewrite bool_decide_eq_true_2 by eauto. cbn [fst snd].
  destruct g as [| | | |s|l|f]; try reflexivity.
  - destruct s as [|c s]; [reflexivity |].
    cbn [py_len length].
    replace (0 <? Z.of_nat (S (length s))) with true
      by (symmetry; apply Z.ltb_lt; lia).
    destruct (Z.of_nat (S (length s))) eqn:E; [lia | reflexivity | reflexivity].
  - by destruct (Hg l).
  - cbn [py_len].
    destruct (Z.of_nat (size f)) as [|k|k] eqn:E; [reflexivity | | lia].
    reflexivity.
Qed.

(** [{"generations":""}], [{"generations":"abc"}] and [{"generations":7}]. *)
Lemma get_cohere_response_generations_not_an_array_samples :
  fst (get_cohere_response sample_key sample_prompt
         (mock (Return (ok_response (PDict {[ K_generations := PStr [] ]})))))
  = Return MSG_MISSING_DATA
  /\ fst (get_cohere_response sample_key sample_prompt
            (mock (Return (ok_response (PDict {[ K_generations := PStr (u "abc") ]})))))
     = Return MSG_UNEXPECTED
  /\ fst (get_cohere_response sample_key sample_prompt
            (mock (Return (ok_response (PDict {[ K_generations := PInt 7 ]})))))
     = Return MSG_UNEXPECTED.
Proof.
  split_and!.
  - rewrite (get_cohere_response_generations_not_an_array sample_key
                  sample_prompt _ (ok_response (PDict {[ K_generations := PStr [] ]}))
                  {[ K_generations := PStr [] ]} (PStr [])) by sample_side.
    vm_compute. reflexivity.
  - rewrite (get_cohere_response_generations_not_an_array sample_key
                  sample_prompt _
                  (ok_response (PDict {[ K_generations := PStr (u "abc") ]}))
                  {[ K_generations := PStr (u "abc") ]} (PStr (u "abc"))) by sample_side.
    vm_compute. reflexivity.
  - rewrite (get_cohere_response_generations_not_an_array sample_key
                  sample_prompt _ (ok_response (PDict {[ K_generations := PInt 7 ]}))
                  {[ K_generations := PInt 7 ]} (PInt 7)) by sample_side.
    vm_compute. reflexivity.
Defined.

(** A response that passes the status checks and whose body does not
    decode: the exception of [response.json()] goes through the same
    [except] clauses as one of [requests.post].  The result is the message
    of its clause, unless a [print] of the clause raises, which takes a lone
    surrogate in the text of the exception or of the response it carries.
    The [JSONDecodeError] of [requests], which carries no response, gives
    the API-error message with the decoder's text, and a plain [ValueError]
    the unexpected-error message. *)
Theorem get_cohere_response_json_raises (key user_input : str) (w : World)
    (response : Response) (e : exc) :
  answer key user_input w = Return response ->
  status_code response <> 401 -> status_code response <> 429 ->
  ~ (400 <= status_code response < 600) ->
  resp_json response = Raise e ->
  fst (get_cohere_response key user_input w)
  = (if unprintable e then Raise unicode_encode_error
     else Return (message_of_exception e))
  /\ (exc_cls e = JSONDecodeError ->
      has_surrogate (exc_str e) = false ->
      exc_response_text e = None ->
      fst (get_cohere_response key user_input w)
      = Return (MSG_API_ERROR_PREFIX ++ exc_str e))
  /\ (exc_cls e = ValueError ->
      has_surrogate (exc_str e) = false ->
      fst (get_cohere_response key user_input w) = Return MSG_UNEXPECTED).
Proof.
  intros Hans H401 H429 Hst Hj.
  rewrite (get_cohere_response_json_raised _ _ _ _ _ Hans H401 H429 Hst Hj).
  unfold caught, unprintable, message_of_exception.
  split; [done |]. split.
  - intros -> -> ->. reflexivity.
  - intros -> ->. reflexivity.
Qed.

(** A 200 response with an empty body. *)
Lemma get_cohere_response_json_raises_sample :
  fst (get_cohere_response sample_key sample_prompt
         (mock (Return (mk_Response 200 (u "OK") URL
                          (Raise (mk_exc JSONDecodeError (u "Expecting value")))))))
  = Return (u "⚠️ **API Error**: Expecting value").
Proof.
  destruct (get_cohere_response_json_raises sample_key sample_prompt
              (mock (Return (mk_Response 200 (u "OK") URL
                               (Raise (mk_exc JSONDecodeError (u "Expecting value"))))))
              (mk_Response 200 (u "OK") URL
                 (Raise (mk_exc JSONDecodeError (u "Expecting value"))))
              (mk_exc JSONDecodeError (u "Expecting value")))
    as [_ [H _]]; [reflexivity | discriminate | discriminate | cbn; lia | reflexivity |].
  rewrite H; [vm_compute |..]; reflexivity.
Defined.

(** The result does not tell a success from a failure: every string without
    white space at its ends is the result of a successful call, and so is
    each of the failure messages. *)
Theorem get_cohere_response_any_trimmed_text (key user_input s : str) :
  strip s = s ->
  resp_json (ok_response (body_with_text s)) = Return (body_with_text s)
  /\ first_text (body_with_text s) = Some (PStr s)
  /\ forall w,
       answer key user_input w = Return (ok_response (body_with_text s)) ->
       fst (get_cohere_response key user_input w) = Return s.
Proof.
  intros Hs. split; [reflexivity |].
  assert (Hft : first_text (body_with_text s) = Some (PStr s)).
  { unfold body_with_text, first_text. rewrite lookup_singleton_eq.
    apply lookup_singleton_eq. }
  split; [exact Hft |]. intros w Hans.
  rewrite (get_cohere_response_wellformed key user_input w
             (ok_response (body_with_text s))
             {[ K_generations := PList [PDict {[ K_text := PStr s ]}] ]}
             {[ K_text := PStr s ]} [] (PStr s));
    [cbn [py_strip]; by rewrite Hs | done | discriminate | discriminate
    | cbn; lia | reflexivity | apply lookup_singleton_eq
    | apply lookup_singleton_eq].
Qed.

(** A success whose text is the timeout message. *)
Lemma get_cohere_response_success_looks_like_timeout :
  fst (get_cohere_response sample_key sample_prompt
         (mock (Return (ok_response (body_with_text MSG_TIMEOUT)))))
  = fst (get_cohere_response sample_key sample_prompt
           (mock (Raise (mk_exc ReadTimeout [])))).
Proof.
  destruct (get_cohere_response_any_trimmed_text sample_key sample_prompt
              MSG_TIMEOUT) as [_ [_ H]]; [vm_compute; reflexivity |].
  rewrite (H (mock (Return (ok_response (body_with_text MSG_TIMEOUT)))));
    reflexivity.
Defined.

(** The client raises nothing but [UnicodeEncodeError], and only when a
    text of the answer has a lone surrogate: the exception comes from a
    [print] of an [except] clause. *)
Theorem get_cohere_response_raises_only_encoding_error (key user_input : str)
    (w : World) (e : exc) :
  fst (get_cohere_response key user_input w) = Raise e ->
  e = unicode_encode_error
  /\ exc_cls e = UnicodeEncodeError
  /\ printable_answer (answer key user_input w) = false.
Proof.
  intros H. pose proof (get_cohere_response_raises _ _ _ _ H) as ->.
  split; [done |]. split; [done |].
  destruct (printable_answer (answer key user_input w)) eqn:Hp; [| done].
  destruct (get_cohere_response_returns_if_printable key user_input w Hp)
    as [s [Hs _]]. congruence.
Qed.

(** A 404 whose body text has a lone surrogate. *)
Lemma get_cohere_response_raises_only_encoding_error_sample :
  printable_answer (Return response_404_surrogate) = false.
Proof.
  destruct (get_cohere_response_raises_only_encoding_error sample_key
              sample_prompt (mock (Return response_404_surrogate))
              unicode_encode_error) as [_ [_ H]]; [vm_compute; reflexivity |].
  exact H.
Defined.



(** ** The relay, step by step *)

Ltac relay_simp :=
  cbn [fst snd dispatch exc_cls is_Exception local_chat_id].

(** The [except] clause, on both sides of the equation. *)
Ltac except_branch :=
  destruct (print (Text (u "Error handling message: ") :: _)) as [[]|?];
  relay_simp; [destruct (bot_do _ _) as [[[]|?] ?] |]; reflexivity.

(** The handler, for an update with a message, step by step. *)
Lemma handle_message_steps (key : str) (m : Message) (usr : option User)
    (w : World) :
  handle_message key (mk_Update (Some m) usr) w
  = match usr with
    | None => apologise (chat_id (chat m)) (NoneType_has_no "id") w
    | Some usr =>
      match print (received_line m usr) with
      | Raise e => apologise (chat_id (chat m)) e w
      | Return _ =>
        match bot_do (send_chat_action (chat_id (chat m)) ACTION_TYPING) w with
        | (Raise e, w1) => apologise (chat_id (chat m)) e w1
        | (Return _, w1) =>
          match get_cohere_response key (text m) w1 with
          | (Raise e, w2) => apologise (chat_id (chat m)) e w2
          | (Return s, w2) =>
            match print (response_line s) with
            | Raise e => apologise (chat_id (chat m)) e w2
            | Return _ =>
              match bot_do (send_message (chat_id (chat m)) s) w2 with
              | (Raise e, w3) => apologise (chat_id (chat m)) e w3
              | (Return _, w3) => (Return tt, w3)
              end
            end
          end
        end
      end
    end.
Proof.
  unfold handle_message, handle_message_body, try_except, bind, lift, ret,
    store_chat_id, load_chat_id, in_world, apologise, received_line,
    response_line.
  cbn [message effective_user message_text message_chat_id fst snd
       local_chat_id].
  destruct usr as [[uid [[|c nm]|]]|];
    cbn [effective_user_id effective_user_username username user_id fst snd
         dispatch exc_cls is_Exception local_chat_id];
    [| | | except_branch].
  all: destruct (print (Text (u "Received message from ") :: _)) as [[]|e];
    relay_simp; [| except_branch].
  all: destruct (bot_do (send_chat_action _ _) w) as [[[]|e] w1];
    relay_simp; [| except_branch].
  all: destruct (get_cohere_response key (text m) w1) as [[s|e] w2];
    relay_simp; [| except_branch].
  all: destruct (print (Text (u "Cohere response: ") :: _)) as [[]|e];
    relay_simp; [| except_branch].
  all: destruct (bot_do (send_message _ s) w2) as [[[]|e] w3];
    relay_simp; [reflexivity | except_branch].
Qed.

Lemma bot_do_run (c : BotCall) (w : World) :
  bot_do c w
  = match telegram w (bot_calls w) c with
    | None => (Return tt, after_call c true w)
    | Some e => (Raise e, after_call c (telegram_took w (bot_calls w) c) w)
    end.
Proof.
  unfold bot_do, after_call.
  destruct (telegram w (bot_calls w) c); [| reflexivity].
  destruct (telegram_took w (bot_calls w) c); reflexivity.
Qed.

Lemma get_cohere_response_run (key user_input : str) (w : World) :
  get_cohere_response key user_input w
  = (fst (get_cohere_response key user_input w),
     after_post (the_request key user_input) w).
Proof. rewrite <- get_cohere_response_world. apply surjective_pairing. Qed.

(** The result of the client does not depend on the bot's side of the
    world. *)
Lemma get_cohere_response_after_call (key user_input : str) (c : BotCall)
    (taken : bool) (w : World) :
  fst (get_cohere_response key user_input (after_call c taken w))
  = fst (get_cohere_response key user_input w).
Proof.
  rewrite (get_cohere_response_result key user_input w).
  by rewrite get_cohere_response_result.
Qed.

Lemma apologise_run (chat_id : Z) (e : exc) (w : World) :
  apologise chat_id e w
  = if has_surrogate (exc_str e) then (Raise unicode_encode_error, w)
    else bot_do (send_message chat_id MSG_RELAY_ERROR) w.
Proof.
  unfold apologise. cbn [print unencodable]. literals.
  destruct (has_surrogate (exc_str e)); reflexivity.
Qed.

Lemma print_raises (l : list fragment) (e : exc) :
  print l = Raise e -> e = unicode_encode_error.
Proof.
  induction l as [|f l IH]; cbn [print]; [discriminate |].
  destruct (unencodable f); [by intros [= <-] | exact IH].
Qed.

Ltac world_fields :=
  unfold after_call, after_post;
  cbn [fst snd network posted telegram telegram_took bot_calls delivered].

(** One bot call of the handler: its verdict is a case split. *)
Ltac step_bot :=
  rewrite bot_do_run; world_fields;
  match goal with
  | |- context [match telegram ?w ?h ?c with _ => _ end] =>
    destruct (telegram w h c) eqn:?
  end; world_fields.

(** The [except] clause on a caught exception whose text is known. *)
Ltac step_apology :=
  rewrite apologise_run;
  first [ progress change (has_surrogate (exc_str unicode_encode_error)) with false
        | progress change (has_surrogate (exc_str (NoneType_has_no "id"))) with false
        | match goal with
          | H : has_surrogate (exc_str ?e) = _ |- context [has_surrogate (exc_str ?e)] =>
            rewrite H
          end
        | match goal with
          | |- context [has_surrogate (exc_str ?e)] =>
            destruct (has_surrogate (exc_str e)) eqn:?
          end ];
  cbn iota.

(** A [print] of the handler: it goes through or raises the encoding
    error. *)
Ltac step_print :=
  match goal with
  | |- context [match print ?l with _ => _ end] =>
    let E := fresh "Hprint" in
    destruct (print l) as [[]|?] eqn:E;
    [| apply print_raises in E; subst ]
  end.

(** The call of the client inside the handler: it returns or raises the
    encoding error. *)
Ltac step_client :=
  match goal with
  | |- context [get_cohere_response ?k ?p ?w] =>
    let E := fresh "Hclient" in
    rewrite (get_cohere_response_run k p w);
    destruct (fst (get_cohere_response k p w)) as [?s|?] eqn:E;
    [| apply get_cohere_response_raises in E; subst ];
    world_fields
  end.

(** Once [chat_id] is bound, a failure in the [try] block is answered with
    the apology, sent to the chat of the message; here the update has no
    sender. *)
Lemma handle_message_apology_when_bound (key : str) (m : Message) (w : World) :
  bot_calls (snd (handle_message key (mk_Update (Some m) None) w))
  = bot_calls w ++ [send_message (chat_id (chat m)) MSG_RELAY_ERROR].
Proof. rewrite handle_message_steps. step_apology. by step_bot. Qed.

(** The apology is best effort: when sending it fails too, the handler
    raises. *)
Lemma handle_message_apology_may_fail (key : str) (m : Message) (w : World) (e : exc) :
  telegram w (bot_calls w) (send_message (chat_id (chat m)) MSG_RELAY_ERROR) = Some e ->
  fst (handle_message key (mk_Update (Some m) None) w) = Raise e.
Proof.
  intros H. rewrite handle_message_steps. step_apology.
  by rewrite bot_do_run, H.
Qed.

(** Without a message the handler leaves the world as it is. *)
Lemma handle_message_unbound_chat_id_state (key : str) (usr : option User)
    (w : World) :
  snd (handle_message key (mk_Update None usr) w) = w
  /\ exists e, fst (handle_message key (mk_Update None usr) w) = Raise e.
Proof. split; [reflexivity | by eexists]. Qed.

(** ** The relay, message present *)

Ltac chat_goal :=
  split_and!;
  first [ reflexivity
        | by (cbn; lia)
        | by (repeat apply List.Forall_cons; try apply List.Forall_nil)
        | by auto ].

(** Whatever the bot and the network do, the handler makes between one and
    three bot calls, all of them to the chat the message came from, and at
    most one request to the generation API, with the text of the message as
    the prompt. *)
Theorem handle_message_stays_in_chat (key : str) (m : Message)
    (usr : option User) (w : World) :
  exists calls posts,
    bot_calls (snd (handle_message key (mk_Update (Some m) usr) w))
    = bot_calls w ++ calls
    /\ Forall (fun c => call_chat c = chat_id (chat m)) calls
    /\ (1 <= length calls <= 3)%nat
    /\ posted (snd (handle_message key (mk_Update (Some m) usr) w))
       = posted w ++ posts
    /\ (posts = [] \/ posts = [the_request key (text m)]).
Proof.
  rewrite handle_message_steps.
  assert (Hone : forall w1 : World,
            bot_calls w1 = bot_calls w -> posted w1 = posted w ->
            exists calls posts,
              bot_calls (snd (bot_do (send_message (chat_id (chat m)) MSG_RELAY_ERROR) w1))
              = bot_calls w ++ calls
              /\ Forall (fun c => call_chat c = chat_id (chat m)) calls
              /\ (1 <= length calls <= 3)%nat
              /\ posted (snd (bot_do (send_message (chat_id (chat m)) MSG_RELAY_ERROR) w1))
                 = posted w ++ posts
              /\ (posts = [] \/ posts = [the_request key (text m)])).
  { intros w1 Hc Hp. exists [send_message (chat_id (chat m)) MSG_RELAY_ERROR], [].
    rewrite bot_do_run.
    destruct (telegram w1 _ _); world_fields; rewrite Hc, Hp, app_nil_r;
      chat_goal. }
  destruct usr as [usr|]; [| step_apology; by apply Hone].
  step_print; [| step_apology; by apply Hone].
  step_bot.
  { step_apology.
    - exists [send_chat_action (chat_id (chat m)) ACTION_TYPING], [].
      world_fields. rewrite app_nil_r. chat_goal.
    - step_bot;
        exists [send_chat_action (chat_id (chat m)) ACTION_TYPING;
                send_message (chat_id (chat m)) MSG_RELAY_ERROR], [];
        rewrite <- app_assoc, app_nil_r; chat_goal. }
  step_client.
  2: { step_apology. step_bot;
         exists [send_chat_action (chat_id (chat m)) ACTION_TYPING;
                 send_message (chat_id (chat m)) MSG_RELAY_ERROR],
                [the_request key (text m)];
         rewrite <- !app_assoc; chat_goal. }
  step_print.
  2: { step_apology. step_bot;
         exists [send_chat_action (chat_id (chat m)) ACTION_TYPING;
                 send_message (chat_id (chat m)) MSG_RELAY_ERROR],
                [the_request key (text m)];
         rewrite <- !app_assoc; chat_goal. }
  step_bot.
  { step_apology.
    - exists [send_chat_action (chat_id (chat m)) ACTION_TYPING;
              send_message (chat_id (chat m)) s],
             [the_request key (text m)].
      world_fields. rewrite <- !app_assoc. chat_goal.
    - step_bot;
        exists [send_chat_action (chat_id (chat m)) ACTION_TYPING;
                send_message (chat_id (chat m)) s;
                send_message (chat_id (chat m)) MSG_RELAY_ERROR],
               [the_request key (text m)];
        rewrite <- !app_assoc; chat_goal. }
  exists [send_chat_action (chat_id (chat m)) ACTION_TYPING;
          send_message (chat_id (chat m)) s],
         [the_request key (text m)].
  rewrite <- !app_assoc; chat_goal.
Qed.

(** An update with a message and no sender: the handler stops at
    [update.effective_user.id], before the typing indicator and before any
    request; only the apology is sent. *)
Theorem handle_message_without_sender (key : str) (m : Message) (w : World) :
  posted (snd (handle_message key (mk_Update (Some m) None) w)) = posted w
  /\ bot_calls (snd (handle_message key (mk_Update (Some m) None) w))
     = bot_calls w ++ [send_message (chat_id (chat m)) MSG_RELAY_ERROR]
  /\ fst (handle_message key (mk_Update (Some m) None) w)
     = match telegram w (bot_calls w)
               (send_message (chat_id (chat m)) MSG_RELAY_ERROR) with
       | None => Return tt
       | Some e => Raise e
       end.
Proof. rewrite handle_message_steps. step_apology. by step_bot. Qed.

(** The plain case: the two lines of the handler can be printed and the bot
    is up.  The typing indicator, then one request to the generation API
    with the text of the message as the prompt, then the result of the
    client, whatever it is, sent to the chat the message came from; the
    handler returns. *)
Theorem handle_message_relays (key : str) (m : Message) (usr : User) (w : World)
    (s : str) :
  print (received_line m usr) = Return tt ->
  telegram w (bot_calls w) (send_chat_action (chat_id (chat m)) ACTION_TYPING) = None ->
  fst (get_cohere_response key (text m) w) = Return s ->
  print (response_line s) = Return tt ->
  telegram w (bot_calls w ++ [send_chat_action (chat_id (chat m)) ACTION_TYPING])
    (send_message (chat_id (chat m)) s) = None ->
  fst (handle_message key (mk_Update (Some m) (Some usr)) w) = Return tt
  /\ bot_calls (snd (handle_message key (mk_Update (Some m) (Some usr)) w))
     = bot_calls w ++ [send_chat_action (chat_id (chat m)) ACTION_TYPING;
                       send_message (chat_id (chat m)) s]
  /\ delivered (snd (handle_message key (mk_Update (Some m) (Some usr)) w))
     = delivered w ++ [send_chat_action (chat_id (chat m)) ACTION_TYPING;
                       send_message (chat_id (chat m)) s]
  /\ posted (snd (handle_message key (mk_Update (Some m) (Some usr)) w))
     = posted w ++ [the_request key (text m)].
Proof.
  intros Hline Htyping Hs Hresp Hreply. rewrite handle_message_steps, Hline.
  rewrite bot_do_run, Htyping, get_cohere_response_run.
  rewrite get_cohere_response_after_call, Hs, Hresp.
  rewrite bot_do_run. world_fields. rewrite Hreply. world_fields.
  by rewrite <- !app_assoc.
Qed.

(** The generation API times out: the user is sent the timeout message. *)
Lemma handle_message_relays_timeout :
  delivered (snd (handle_message sample_key (update_text sample_prompt)
                    (world_with (Raise (mk_exc ReadTimeout [])) (fun _ _ => None))))
  = [send_chat_action 42 ACTION_TYPING; send_message 42 MSG_TIMEOUT].
Proof.
  destruct (handle_message_relays sample_key
              (mk_Message sample_prompt (mk_Chat 42))
              (mk_User 7 (Some (u "ann")))
              (world_with (Raise (mk_exc ReadTimeout [])) (fun _ _ => None))
              MSG_TIMEOUT) as [_ [_ [H _]]];
    [reflexivity | reflexivity | vm_compute; reflexivity | reflexivity
    | reflexivity |].
  exact H.
Defined.





(** The messages that reach the user in one run, for any update, any bot
    and any network: at most two, and at most one when no call of the bot
    raises after Telegram has taken the message.  The second message can
    only be the apology that follows an answer whose sending raised although
    it went through. *)
Theorem handle_message_delivers_one_message_at_most (key : str)
    (update : Update) (w : World) :
  exists sent,
    delivered (snd (handle_message key update w)) = delivered w ++ sent
    /\ (length (List.filter is_send_message sent) <= 2)%nat
    /\ ((forall calls c, telegram_took w calls c = false) ->
        (length (List.filter is_send_message sent) <= 1)%nat).
Proof.
  destruct update as [[m|] usr].
  2: { destruct (handle_message_unbound_chat_id_state key usr w) as [-> _].
       exists []. rewrite app_nil_r. split_and!; [done | cbn; lia | cbn; lia]. }
  rewrite handle_message_steps.
  assert (Hone : forall w1 : World,
            telegram_took w1 = telegram_took w -> delivered w1 = delivered w ->
            exists sent,
              delivered (snd (bot_do (send_message (chat_id (chat m)) MSG_RELAY_ERROR) w1))
              = delivered w ++ sent
              /\ (length (List.filter is_send_message sent) <= 2)%nat
              /\ ((forall calls c, telegram_took w calls c = false) ->
                  (length (List.filter is_send_message sent) <= 1)%nat)).
  { intros w1 Ht Hd. rewrite bot_do_run.
    destruct (telegram w1 _ _); world_fields;
      [destruct (telegram_took w1 _ _) |]; rewrite Hd;
      [eexists [_] | exists [] | eexists [_]]; rewrite ?app_nil_r;
      (split_and!; [reflexivity | cbn; lia | cbn; lia]). }
  destruct usr as [usr|]; [| step_apology; by apply Hone].
  step_print; [| step_apology; by apply Hone].
  assert (Htwo : forall (b : bool) (w1 : World),
            telegram_took w1 = telegram_took w ->
            delivered w1
            = (if b then delivered w ++ [send_chat_action (chat_id (chat m)) ACTION_TYPING]
               else delivered w) ->
            exists sent,
              delivered (snd (bot_do (send_message (chat_id (chat m)) MSG_RELAY_ERROR) w1))
              = delivered w ++ sent
              /\ (length (List.filter is_send_message sent) <= 2)%nat
              /\ ((forall calls c, telegram_took w calls c = false) ->
                  (length (List.filter is_send_message sent) <= 1)%nat)).
  { intros b w1 Ht Hd. rewrite bot_do_run.
    destruct (telegram w1 _ _); world_fields;
      [destruct (telegram_took w1 _ _) |]; rewrite Hd; destruct b;
      rewrite <- ?app_assoc;
      eexists; (split_and!; [first [reflexivity | symmetry; apply app_nil_r]
                            | cbn; lia | cbn; lia]). }
  step_bot.
  { step_apology.
    - destruct (telegram_took w _ _); [eexists [_] | exists []];
        rewrite ?app_nil_r; (split_and!; [reflexivity | cbn; lia | cbn; lia]).
    - by apply (Htwo (telegram_took w (bot_calls w)
                        (send_chat_action (chat_id (chat m)) ACTION_TYPING))). }
  step_client; [| step_apology; by apply (Htwo true)].
  step_print; [| step_apology; by apply (Htwo true)].
  step_bot.
  2: { eexists [_; _]. rewrite <- app_assoc.
       split_and!; [reflexivity | cbn; lia | cbn; lia]. }
  destruct (telegram_took w _ (send_message (chat_id (chat m)) s)) eqn:Htook.
  2: { step_apology.
       - world_fields. eexists [_].
         split_and!; [reflexivity | cbn; lia | cbn; lia].
       - by apply (Htwo true). }
  step_apology.
  - world_fields. rewrite <- !app_assoc. eexists [_; _].
    split_and!; [reflexivity | cbn; lia |].
    intros Hno. by rewrite Hno in Htook.
  - rewrite bot_do_run. world_fields.
    destruct (telegram w _ (send_message _ MSG_RELAY_ERROR)); world_fields;
      [destruct (telegram_took w _ (send_message _ MSG_RELAY_ERROR)) |];
      rewrite <- ?app_assoc; cbn [app]; eexists;
      (split_and!; [reflexivity | cbn; lia |]);
      intros Hno; by rewrite Hno in Htook.
Qed.

(** The bot takes the answer but its reply is lost: the user gets the answer
    and the apology. *)
Example handle_message_delivers_answer_and_apology :
  delivered (snd (handle_message sample_key (update_text sample_prompt)
                    (world_losing (Return (ok_response body_hello)) is_answer)))
  = [send_chat_action 42 ACTION_TYPING; send_message 42 (u "Hello there");
     send_message 42 MSG_RELAY_ERROR].
Proof. vm_compute. reflexivity. Qed.

(** No call of the bot raises after Telegram has taken the message. *)
Lemma handle_message_delivers_one_message_at_most_sample :
  exists sent,
    delivered (snd (handle_message sample_key (update_text sample_prompt)
                      (world_with (Return (ok_response body_blank))
                                  telegram_rejects_empty)))
    = [] ++ sent
    /\ (length (List.filter is_send_message sent) <= 1)%nat.
Proof.
  destruct (handle_message_delivers_one_message_at_most sample_key
              (update_text sample_prompt)
              (world_with (Return (ok_response body_blank)) telegram_rejects_empty))
    as [sent [Hd [_ Hone]]].
  exists sent. split; [exact Hd | by apply Hone].
Defined.

(** When the typing indicator cannot be sent, the generation API is not
    called at all: the handler goes straight to the [except] clause, and,
    the text of the bot's exception being printable, to the apology; its
    outcome is that of sending the apology. *)
Theorem handle_message_typing_fails (key : str) (m : Message) (usr : User)
    (w : World) (e : exc) :
  print (received_line m usr) = Return tt ->
  telegram w (bot_calls w) (send_chat_action (chat_id (chat m)) ACTION_TYPING)
  = Some e ->
  has_surrogate (exc_str e) = false ->
  posted (snd (handle_message key (mk_Update (Some m) (Some usr)) w)) = posted w
  /\ bot_calls (snd (handle_message key (mk_Update (Some m) (Some usr)) w))
     = bot_calls w ++ [send_chat_action (chat_id (chat m)) ACTION_TYPING;
                       send_message (chat_id (chat m)) MSG_RELAY_ERROR]
  /\ fst (handle_message key (mk_Update (Some m) (Some usr)) w)
     = match telegram w
               (bot_calls w ++ [send_chat_action (chat_id (chat m)) ACTION_TYPING])
               (send_message (chat_id (chat m)) MSG_RELAY_ERROR) with
       | None => Return tt
       | Some e' => Raise e'
       end.
Proof.
  intros Hline Htyping He. rewrite handle_message_steps, Hline.
  rewrite bot_do_run, Htyping. step_apology.
  step_bot; by rewrite <- app_assoc.
Qed.

(** The typing indicator is down, the rest works: the user gets the apology
    and the generation API is never asked. *)
Lemma handle_message_typing_fails_sample :
  posted (snd (handle_message sample_key (update_text sample_prompt)
                 (world_with (Return (ok_response body_hello)) telegram_no_typing)))
  = []
  /\ delivered (snd (handle_message sample_key (update_text sample_prompt)
                       (world_with (Return (ok_response body_hello))
                                   telegram_no_typing)))
     = [send_message 42 MSG_RELAY_ERROR].
Proof.
  destruct (handle_message_typing_fails sample_key
              (mk_Message sample_prompt (mk_Chat 42)) (mk_User 7 (Some (u "ann")))
              (world_with (Return (ok_response body_hello)) telegram_no_typing)
              (mk_exc TelegramError (u "Timed out")) eq_refl eq_refl eq_refl)
    as [H _].
  split; [exact H | reflexivity].
Defined.

(** When the answer cannot be sent, the text of the bot's exception being
    printable, the apology is sent instead, to the same chat, after the
    request has been made; the outcome of the handler is that of sending the
    apology. *)
Theorem handle_message_reply_fails (key : str) (m : Message) (usr : User)
    (w : World) (s : str) (e : exc) :
  print (received_line m usr) = Return tt ->
  telegram w (bot_calls w) (send_chat_action (chat_id (chat m)) ACTION_TYPING) = None ->
  fst (get_cohere_response key (text m) w) = Return s ->
  print (response_line s) = Return tt ->
  telegram w (bot_calls w ++ [send_chat_action (chat_id (chat m)) ACTION_TYPING])
    (send_message (chat_id (chat m)) s) = Some e ->
  has_surrogate (exc_str e) = false ->
  posted (snd (handle_message key (mk_Update (Some m) (Some usr)) w))
  = posted w ++ [the_request key (text m)]
  /\ bot_calls (snd (handle_message key (mk_Update (Some m) (Some usr)) w))
     = bot_calls w ++ [send_chat_action (chat_id (chat m)) ACTION_TYPING;
                       send_message (chat_id (chat m)) s;
                       send_message (chat_id (chat m)) MSG_RELAY_ERROR]
  /\ fst (handle_message key (mk_Update (Some m) (Some usr)) w)
     = match telegram w
               (bot_calls w ++ [send_chat_action (chat_id (chat m)) ACTION_TYPING;
                                send_message (chat_id (chat m)) s])
               (send_message (chat_id (chat m)) MSG_RELAY_ERROR) with
       | None => Return tt
       | Some e' => Raise e'
       end.
Proof.
  intros Hline Htyping Hs Hresp Hreply He.
  rewrite handle_message_steps, Hline.
  rewrite bot_do_run, Htyping, get_cohere_response_run.
  rewrite get_cohere_response_after_call, Hs, Hresp.
  rewrite bot_do_run. world_fields. rewrite Hreply. step_apology.
  rewrite bot_do_run. world_fields. rewrite <- !app_assoc. cbn [app].
  destruct (telegram w _ (send_message _ MSG_RELAY_ERROR)); world_fields;
    by rewrite <- ?app_assoc.
Qed.

(** The generated text is blank, so the client returns the empty string; a
    bot that refuses an empty text makes the handler apologise. *)
Lemma handle_message_reply_fails_blank :
  fst (handle_message sample_key (update_text sample_prompt)
         (world_with (Return (ok_response body_blank)) telegram_rejects_empty))
  = Return tt
  /\ delivered (snd (handle_message sample_key (update_text sample_prompt)
                       (world_with (Return (ok_response body_blank))
                                   telegram_rejects_empty)))
     = [send_chat_action 42 ACTION_TYPING; send_message 42 MSG_RELAY_ERROR].
Proof.
  destruct (handle_message_reply_fails sample_key
              (mk_Message sample_prompt (mk_Chat 42)) (mk_User 7 (Some (u "ann")))
              (world_with (Return (ok_response body_blank)) telegram_rejects_empty)
              [] (mk_exc TelegramError (u "Message text is empty")))
    as [_ [_ H]];
    [reflexivity | reflexivity | vm_compute; reflexivity | reflexivity
    | reflexivity | reflexivity |].
  split; [exact H | reflexivity].
Defined.

(** With a message in the update, the handler raises in two cases only.
    Either the apology itself cannot be sent, and the exception is the one
    the bot raised on that last call.  Or the bot raised on the typing
    indicator or on the answer an exception whose text cannot be printed:
    the [print] of the [except] clause then raises [UnicodeEncodeError] and
    the apology is not attempted. *)
Theorem handle_message_raises_only_from_apology (key : str) (m : Message)
    (usr : option User) (w : World) (e : exc) :
  fst (handle_message key (mk_Update (Some m) usr) w) = Raise e ->
  (exists before,
     bot_calls (snd (handle_message key (mk_Update (Some m) usr) w))
     = before ++ [send_message (chat_id (chat m)) MSG_RELAY_ERROR]
     /\ telegram w before (send_message (chat_id (chat m)) MSG_RELAY_ERROR) = Some e)
  \/ (e = unicode_encode_error
      /\ exists before c e0,
           bot_calls (snd (handle_message key (mk_Update (Some m) usr) w))
           = before ++ [c]
           /\ telegram w before c = Some e0
           /\ has_surrogate (exc_str e0) = true).
Proof.
  rewrite handle_message_steps.
  assert (Hlast : forall w1 : World,
            telegram w1 = telegram w ->
            fst (bot_do (send_message (chat_id (chat m)) MSG_RELAY_ERROR) w1)
            = Raise e ->
            exists before,
              bot_calls (snd (bot_do (send_message (chat_id (chat m)) MSG_RELAY_ERROR) w1))
              = before ++ [send_message (chat_id (chat m)) MSG_RELAY_ERROR]
              /\ telegram w before (send_message (chat_id (chat m)) MSG_RELAY_ERROR)
                 = Some e).
  { intros w1 Ht. rewrite bot_do_run.
    destruct (telegram w1 _ _) eqn:E; world_fields; [| discriminate].
    intros [= <-]. rewrite Ht in E. eauto. }
  destruct usr as [usr|]; [| step_apology; intros H; left; by apply Hlast].
  step_print; [| step_apology; intros H; left; by apply Hlast].
  step_bot.
  { step_apology.
    - world_fields. intros [= <-]. right. split; [done |]. eauto 8.
    - intros H. left. by apply Hlast. }
  step_client; [| step_apology; intros H; left; by apply Hlast].
  step_print; [| step_apology; intros H; left; by apply Hlast].
  step_bot; [| discriminate].
  step_apology.
  - world_fields. intros [= <-]. right. split; [done |]. eauto 8.
  - intros H. left. by apply Hlast.
Qed.

(** The bot is down: the handler raises what the bot raised on the apology. *)
Lemma handle_message_raises_only_from_apology_sample :
  exists before,
    bot_calls (snd (handle_message sample_key (update_text sample_prompt)
                      (world_with (Return (ok_response body_hello)) telegram_down)))
    = before ++ [send_message 42 MSG_RELAY_ERROR]
    /\ telegram_down before (send_message 42 MSG_RELAY_ERROR)
       = Some (mk_exc TelegramError (u "Timed out")).
Proof.
  destruct (handle_message_raises_only_from_apology sample_key
              (mk_Message sample_prompt (mk_Chat 42))
              (Some (mk_User 7 (Some (u "ann"))))
              (world_with (Return (ok_response body_hello)) telegram_down)
              (mk_exc TelegramError (u "Timed out")) eq_refl)
    as [H | [H _]]; [exact H | discriminate H].
Defined.

(** ** The commands *)

(** [/start] on an update with a message: one bot call, the welcome text to
    the chat of the message, and no request to the generation API.  When the
    update has no sender the welcome is sent all the same, and the handler
    raises afterwards, on [update.effective_user.id]. *)
Theorem start_command_sends_welcome (m : Message) (usr : option User) (w : World) :
  bot_calls (snd (start_command (mk_Update (Some m) usr) w))
  = bot_calls w ++ [send_message (chat_id (chat m)) welcome_message]
  /\ posted (snd (start_command (mk_Update (Some m) usr) w)) = posted w
  /\ fst (start_command (mk_Update (Some m) usr) w)
     = match telegram w (bot_calls w)
               (send_message (chat_id (chat m)) welcome_message), usr with
       | Some e, _ => Raise e
       | None, Some _ => Return tt
       | None, None => Raise (NoneType_has_no "id")
       end
  /\ (telegram w (bot_calls w) (send_message (chat_id (chat m)) welcome_message)
      = None ->
      delivered (snd (start_command (mk_Update (Some m) usr) w))
      = delivered w ++ [send_message (chat_id (chat m)) welcome_message]).
Proof.
  unfold start_command, reply_text, bind, lift, ret. cbn [message effective_user].
  rewrite bot_do_run.
  destruct (telegram w (bot_calls w) _) as [e|] eqn:E; world_fields;
    [by split_and! |].
  destruct usr as [usr|]; cbn [effective_user_id fst snd]; simp_client;
    by split_and!.
Qed.

(** [/start] from an update without a sender, the bot being up. *)
Lemma start_command_sends_welcome_sample :
  delivered (snd (start_command (mk_Update (Some (mk_Message (u "/start") (mk_Chat 42))) None)
                    (mock (Raise too_many_redirects))))
  = [send_message 42 welcome_message]
  /\ fst (start_command (mk_Update (Some (mk_Message (u "/start") (mk_Chat 42))) None)
            (mock (Raise too_many_redirects)))
     = Raise (NoneType_has_no "id").
Proof.
  destruct (start_command_sends_welcome (mk_Message (u "/start") (mk_Chat 42)) None
              (mock (Raise too_many_redirects))) as [_ [_ [Hr Hd]]].
  split; [apply Hd; reflexivity | exact Hr].
Defined.

(** [/help] on an update with a message: one bot call, the help text to the
    chat of the message, no request to the generation API, and an outcome
    that is the bot's, whoever the sender is or if there is none. *)
Theorem help_command_sends_help (m : Message) (usr : option User) (w : World) :
  bot_calls (snd (help_command (mk_Update (Some m) usr) w))
  = bot_calls w ++ [send_message (chat_id (chat m)) help_message]
  /\ posted (snd (help_command (mk_Update (Some m) usr) w)) = posted w
  /\ fst (help_command (mk_Update (Some m) usr) w)
     = match telegram w (bot_calls w)
               (send_message (chat_id (chat m)) help_message) with
       | Some e => Raise e
       | None => Return tt
       end
  /\ help_command (mk_Update (Some m) usr) w
     = help_command (mk_Update (Some m) None) w.
Proof.
  unfold help_command, reply_text. cbn [message]. rewrite bot_do_run.
  destruct (telegram w (bot_calls w) _) as [e|]; world_fields; by split_and!.
Qed.

(** Both commands on an update without a message (an edited command): the
    handler raises [AttributeError] on [update.message.reply_text] and
    nothing is sent. *)
Theorem commands_without_message (usr : option User) (w : World) :
  start_command (mk_Update None usr) w = (Raise (NoneType_has_no "reply_text"), w)
  /\ help_command (mk_Update None usr) w = (Raise (NoneType_has_no "reply_text"), w)
  /\ exc_cls (NoneType_has_no "reply_text") = AttributeError.
Proof. split_and!; reflexivity. Qed.

(** ** More about start-up *)

(** The preview of the key: a key of at most 16 characters is not shown at
    all; of a longer key, the first 8 and the last 8 characters are shown
    around three dots, 19 characters in all, and the characters between
    them, at least one, are hidden. *)
Theorem masked_key_hides (key : str) :
  ((length key <= 16)%nat -> masked_key key = u "***")
  /\ ((16 < length key)%nat ->
      exists hidden,
        key = take 8 key ++ hidden ++ drop (length key - 8) key
        /\ length hidden = (length key - 16)%nat
        /\ masked_key key = take 8 key ++ u "..." ++ drop (length key - 8) key
        /\ length (masked_key key) = 19%nat).
Proof.
  unfold masked_key. split; intros H.
  - destruct (16 <? length key)%nat eqn:E; [| reflexivity].
    apply Nat.ltb_lt in E. lia.
  - destruct (16 <? length key)%nat eqn:E; [| apply Nat.ltb_ge in E; lia].
    exists (take (length key - 16) (drop 8 key)). split_and!.
    + rewrite <- (take_drop 8 key) at 1. f_equal.
      rewrite <- (take_drop (length key - 16) (drop 8 key)) at 1. f_equal.
      rewrite drop_drop. f_equal. lia.
    + rewrite length_take, length_drop. lia.
    + reflexivity.
    + rewrite !length_app, length_take, length_drop.
      change (length (u "...")) with 3%nat. lia.
Qed.

Lemma masked_key_hides_sample :
  masked_key long_key = u "abcdefgh...stuvwxyz"
  /\ masked_key sample_key = u "***".
Proof.
  destruct (masked_key_hides long_key) as [_ Hl].
  destruct (masked_key_hides sample_key) as [Hs _].
  split.
  - destruct Hl as [hidden [_ [_ [-> _]]]]; [vm_compute; lia | vm_compute; reflexivity].
  - apply Hs. vm_compute. lia.
Defined.


(** When start-up goes on, the key and the token it goes on with are
    non-empty; each is the value of the environment if the variable is set
    there, and the value of the [.env] file otherwise; the last line printed
    is the preview of the key. *)
Theorem startup_loaded (dotenv environ : gmap str str) (key token : str) :
  snd (startup dotenv environ) = Loaded key token ->
  key <> [] /\ token <> []
  /\ (environ !! u "COHERE_API_KEY" = Some key
      \/ environ !! u "COHERE_API_KEY" = None
         /\ dotenv !! u "COHERE_API_KEY" = Some key)
  /\ (environ !! u "TELEGRAM_BOT_TOKEN" = Some token
      \/ environ !! u "TELEGRAM_BOT_TOKEN" = None
         /\ dotenv !! u "TELEGRAM_BOT_TOKEN" = Some token)
  /\ last (fst (startup dotenv environ))
     = Some (u "Cohere API Key preview: " ++ masked_key key).
Proof.
  unfold startup. cbn zeta. unfold load_dotenv.
  destruct ((environ ∪ dotenv) !! u "COHERE_API_KEY") as [[|k ks]|] eqn:Ek;
    destruct ((environ ∪ dotenv) !! u "TELEGRAM_BOT_TOKEN") as [[|t ts]|] eqn:Et;
    cbn [truthy negb orb default fst snd str_of_bool]; try discriminate.
  intros [= <- <-].
  apply lookup_union_Some_raw in Ek, Et.
  split_and!; [discriminate | discriminate | tauto | tauto | apply last_snoc].
Qed.

Lemma startup_loaded_sample :
  last (fst (startup ∅ environ_full)) = Some (u "Cohere API Key preview: ***").
Proof.
  destruct (startup_loaded ∅ environ_full sample_key (u "12345:token"))
    as [_ [_ [_ [_ H]]]]; [vm_compute; reflexivity |].
  rewrite H. vm_compute. reflexivity.
Defined.

(** A variable that is set but empty in the environment hides the value of
    the [.env] file: start-up exits even when the file has the key and the
    token. *)
Theorem startup_empty_variable_hides_dotenv (dotenv environ : gmap str str) :
  environ !! u "COHERE_API_KEY" = Some []
  \/ environ !! u "TELEGRAM_BOT_TOKEN" = Some [] ->
  snd (startup dotenv environ) = SystemExit 1.
Proof.
  intros H. unfold startup. cbn zeta. unfold load_dotenv.
  assert (Hb : negb (truthy ((environ ∪ dotenv) !! u "COHERE_API_KEY"))
               || negb (truthy ((environ ∪ dotenv) !! u "TELEGRAM_BOT_TOKEN"))
               = true).
  { destruct H as [H | H];
      rewrite (lookup_union_Some_l _ _ _ _ H); cbn [truthy negb orb];
      [done | by rewrite orb_true_r]. }
  by rewrite Hb.
Qed.

Lemma startup_empty_variable_hides_dotenv_sample :
  snd (startup environ_full {[ u "COHERE_API_KEY" := [] ]}) = SystemExit 1.
Proof.
  apply startup_empty_variable_hides_dotenv. left. vm_compute. reflexivity.
Defined.
